(** * Expense tracker: the cleaning, aggregation, alert and export pipeline
    of [app.py], embedded over a small model of the pandas frames it uses.

    A cell [Num x] holds the number written [x], an exact rational
    ([Qc]).  Which records enter which sum is stated with exact sums;
    pandas adds in binary floating point, and what the program computes,
    with every rounding, is in [F64] below.  A missing value (NaN, None,
    NaT) is the single cell [NA]. *)

From Stdlib Require Import QArith Qcanon Ascii String SpecFloat.
From stdpp Require Import gmap strings list fin_maps numbers pretty sorting.

Local Open Scope Z_scope.

(** ** Cells, rows and frames *)

(** A pandas [Timestamp]: calendar date and the time of day in nanoseconds. *)
Record Timestamp := { ts_year : Z; ts_month : Z; ts_day : Z; ts_nanos : Z }.

(** A pandas [Period] of frequency 'M': a calendar year-month. *)
Record Period := { p_year : Z; p_month : Z }.

Inductive cell :=
  | NA
  | Str (s : string)
  | Num (x : Qc)
  | Time (t : Timestamp)
  | Per (p : Period).

Global Instance Timestamp_eq_dec : EqDecision Timestamp.
Proof. solve_decision. Defined.
Global Instance Period_eq_dec : EqDecision Period.
Proof. solve_decision. Defined.
Global Instance cell_eq_dec : EqDecision cell.
Proof. solve_decision. Defined.

(** A frame: the column labels in order, and the records in order, each
    record a dictionary from column label to cell.  The row index is not
    modelled (every use in the program is positional or ignores it). *)
Record DataFrame := { columns : list string; rows : list (gmap string cell) }.

Global Instance DataFrame_eq_dec : EqDecision DataFrame.
Proof. solve_decision. Defined.

(** ** Python exceptions as results *)

Inductive Error :=
  | KeyError (key : string)
  | AttributeError (msg : string)
  | TypeError (msg : string)
  | ParserError (msg : string)
  | RerunException.

Inductive Result (A : Type) :=
  | Ok (a : A)
  | Err (e : Error).
Arguments Ok {A} a.
Arguments Err {A} e.

Global Instance Error_eq_dec : EqDecision Error.
Proof. solve_decision. Defined.
Global Instance Result_eq_dec `{EqDecision A} : EqDecision (Result A).
Proof. solve_decision. Defined.

Global Instance Result_ret : MRet Result := @Ok.
Global Instance Result_bind : MBind Result :=
  λ A B f m, match m with Ok a => f a | Err e => Err e end.
Global Instance Result_fmap : FMap Result :=
  λ A B f m, match m with Ok a => Ok (f a) | Err e => Err e end.

(** ** The pandas operations the program calls *)

Definition is_datetime (c : cell) : Prop :=
  match c with NA | Time _ => True | _ => False end.
Definition is_numeric (c : cell) : Prop :=
  match c with NA | Num _ => True | _ => False end.
Definition is_period (c : cell) : Prop :=
  match c with NA | Per _ => True | _ => False end.

Global Instance is_datetime_dec c : Decision (is_datetime c).
Proof. destruct c; apply _. Defined.
Global Instance is_numeric_dec c : Decision (is_numeric c).
Proof. destruct c; apply _. Defined.
Global Instance is_period_dec c : Decision (is_period c).
Proof. destruct c; apply _. Defined.

(** A cell of a record; a label the record lacks reads as missing. *)
Definition row_get (r : gmap string cell) (c : string) : cell :=
  default NA (r !! c).

Definition notna_row (cols : list string) (r : gmap string cell) : Prop :=
  Forall (λ c, row_get r c ≠ NA) cols.

Global Instance notna_row_dec cols r : Decision (notna_row cols r).
Proof. unfold notna_row. apply _. Defined.

Definition reindex (cols : list string) (r : gmap string cell) : gmap string cell :=
  list_to_map ((λ c, (c, row_get r c)) <$> cols).

(** What a Python expression of the program can evaluate to where a
    series is expected. *)
Inductive PyValue :=
  | PySeries (s : list cell)
  | PyStr (s : string).

(** One sheet of a workbook: its name, header row and body rows. *)
Record Sheet := { sheet_name : string; header : list string; body : list (list cell) }.

Global Instance Sheet_eq_dec : EqDecision Sheet.
Proof. solve_decision. Defined.

(** The methods of a frame, on its value. *)
Module Frame.

(** [df[c]] *)
Definition getitem (df : DataFrame) (c : string) : Result (list cell) :=
  if decide (c ∈ columns df)
  then Ok ((λ r, row_get r c) <$> rows df)
  else Err (KeyError c).

(** [df[c] = s], for a series [s] computed from [df] itself (same index):
    an existing column is overwritten, a new one goes last. *)
Definition setitem (df : DataFrame) (c : string) (s : list cell) : DataFrame :=
  {| columns := if decide (c ∈ columns df) then columns df else columns df ++ [c];
     rows := zip_with (λ r v, <[c := v]> r) (rows df) s |}.

(** [df.get(c, default)] *)
Definition get (df : DataFrame) (c : string) (default : PyValue) : PyValue :=
  match getitem df c with
  | Ok s => PySeries s
  | Err _ => default
  end.

(** [df.dropna()]: the records with no missing value in any column. *)
Definition dropna (df : DataFrame) : DataFrame :=
  {| columns := columns df; rows := filter (notna_row (columns df)) (rows df) |}.

(** [df[mask]] for a boolean series [mask] on the index of [df]. *)
Definition select_rows (df : DataFrame) (mask : list bool) : DataFrame :=
  {| columns := columns df;
     rows := (filter (λ rb, rb.2 = true) (zip (rows df) mask)).*1 |}.

(** [df[[c1; ...; cn]]] *)
Definition select_columns (df : DataFrame) (cols : list string) : Result DataFrame :=
  match filter (λ c, c ∉ columns df) cols with
  | [] => Ok {| columns := cols; rows := reindex cols <$> rows df |}
  | c :: _ => Err (KeyError c)
  end.

(** [pd.concat([a, b], ignore_index=True)]: the columns of [a], then those
    only [b] has; the records of [a], then those of [b], each with a
    missing value in the columns it lacks. *)
Definition concat (a b : DataFrame) : DataFrame :=
  let cols := columns a ++ filter (λ c, c ∉ columns a) (columns b) in
  {| columns := cols; rows := reindex cols <$> (rows a ++ rows b) |}.

(** [df.empty] *)
Definition empty (df : DataFrame) : bool :=
  bool_decide (rows df = [] ∨ columns df = []).

(** [df.to_excel(writer, sheet_name=name, index=False)] *)
Definition to_excel (df : DataFrame) (name : string) : Sheet :=
  {| sheet_name := name;
     header := columns df;
     body := (λ r, row_get r <$> columns df) <$> rows df |}.

End Frame.

(** [s.fillna(x)]; a string has no such method. *)
Definition fillna (v : PyValue) (x : cell) : Result (list cell) :=
  match v with
  | PySeries s => Ok ((λ c, match c with NA => x | _ => c end) <$> s)
  | PyStr _ => Err (AttributeError "'str' object has no attribute 'fillna'")
  end.

Definition to_period_M (t : Timestamp) : Period :=
  {| p_year := ts_year t; p_month := ts_month t |}.

Definition to_period_cell (c : cell) : cell :=
  match c with Time t => Per (to_period_M t) | _ => NA end.

(** [s.dt.to_period('M')]; the [.dt] accessor exists on datetime series only. *)
Definition dt_to_period (s : list cell) : Result (list cell) :=
  if decide (Forall is_datetime s)
  then Ok (to_period_cell <$> s)
  else Err (AttributeError "Can only use .dt accessor with datetimelike values").

Definition Qc_sum (xs : list Qc) : Qc := foldr Qcplus 0%Qc xs.

Definition num_value (c : cell) : option Qc :=
  match c with Num x => Some x | _ => None end.
Definition per_value (c : cell) : option Period :=
  match c with Per p => Some p | _ => None end.

(** [s.sum()] of a numeric series; missing values are skipped. *)
Definition series_sum (s : list cell) : Result Qc :=
  if decide (Forall is_numeric s)
  then Ok (Qc_sum (omap num_value s))
  else Err (TypeError "unsupported operand type(s) for +").

(** Chronological order of year-months. *)
Definition period_compare (p q : Period) : comparison :=
  match p_year p ?= p_year q with
  | Eq => p_month p ?= p_month q
  | c => c
  end.

Definition period_max (p q : Period) : Period :=
  match period_compare p q with Lt => q | _ => p end.

(** [s.max()] of a period series; missing values are skipped, and the
    maximum of no value is missing. *)
Definition series_max (s : list cell) : Result cell :=
  if decide (Forall is_period s)
  then Ok (match omap per_value s with
           | [] => NA
           | p :: ps => Per (foldl period_max p ps)
           end)
  else Err (TypeError "'>=' not supported between instances").

(** [s == v], element by element; a missing value equals nothing. *)
Definition eq_mask (s : list cell) (v : cell) : list bool :=
  (λ c, match c, v with
        | NA, _ | _, NA => false
        | _, _ => bool_decide (c = v)
        end) <$> s.

Definition timestamp_compare (t u : Timestamp) : comparison :=
  match ts_year t ?= ts_year u with
  | Eq => match ts_month t ?= ts_month u with
          | Eq => match ts_day t ?= ts_day u with
                  | Eq => ts_nanos t ?= ts_nanos u
                  | c => c
                  end
          | c => c
          end
  | c => c
  end.

Definition cell_rank (c : cell) : Z :=
  match c with NA => 0 | Num _ => 1 | Str _ => 2 | Time _ => 3 | Per _ => 4 end.

(** The order in which group keys are sorted.  Keys of one type compare
    as in Python; pandas leaves keys of mixed types unsorted, where this
    order goes by type. *)
Definition cell_compare (a b : cell) : comparison :=
  match a, b with
  | Num x, Num y => (x ?= y)%Qc
  | Str s, Str t => String.compare s t
  | Time t, Time u => timestamp_compare t u
  | Per p, Per q => period_compare p q
  | _, _ => cell_rank a ?= cell_rank b
  end.

Definition cell_le (a b : cell) : Prop := cell_compare a b ≠ Gt.
Global Instance cell_le_dec : RelDecision cell_le.
Proof. intros a b. unfold cell_le. apply _. Defined.

(** The entries [(key, value)] of the records whose key is present
    (groupby drops missing keys); a missing value adds nothing to a sum. *)
Definition group_entries (keys vals : list cell) : list (cell * Qc) :=
  omap (λ kv, match kv.1 with
              | NA => None
              | k => Some (k, default 0%Qc (num_value kv.2))
              end) (zip keys vals).

Definition group_total (entries : list (cell * Qc)) (k : cell) : Qc :=
  Qc_sum (filter (λ e, e.1 = k) entries).*2.

(** [df.groupby(key)[val].sum()]: one entry per distinct key, keys sorted,
    each with the sum of the values of its records. *)
Definition groupby_sum (df : DataFrame) (key val : string) : Result (list (cell * Qc)) :=
  keys ← Frame.getitem df key;
  vals ← Frame.getitem df val;
  if decide (Forall is_numeric vals)
  then let entries := group_entries keys vals in
       Ok ((λ k, (k, group_total entries k)) <$>
             merge_sort cell_le (remove_dups entries.*1))
  else Err (TypeError "agg function failed [how->sum,dtype->object]").

(** [s.mean()]; the mean of no value is NaN, here [None]. *)
Definition series_mean (xs : list Qc) : option Qc :=
  match xs with
  | [] => None
  | _ => Some (Qc_sum xs / Q2Qc (inject_Z (Z.of_nat (length xs))))%Qc
  end.

(** [s.to_frame().to_excel(writer, sheet_name=name)] for the result [s] of
    a groupby sum: the keys are the index, written as the first column. *)
Definition summary_to_excel (s : list (cell * Qc)) (key val name : string) : Sheet :=
  {| sheet_name := name;
     header := [key; val];
     body := (λ kv, [kv.1; Num kv.2]) <$> s |}.

(** The parsers of pandas are taken as given.  [to_datetime] and
    [to_numeric] are the calls with [errors='coerce'] on a whole column
    (the date format is inferred per column, so the result of one cell may
    depend on the others): they keep the length, yield timestamps,
    respectively numbers, or missing values, and leave a column that is
    already of that type as it is. *)
Class Pandas := {
  read_csv : string → Result DataFrame;
  to_datetime : list cell → list cell;
  to_numeric : list cell → list cell;
  to_datetime_length s : length (to_datetime s) = length s;
  to_datetime_dtype s : Forall is_datetime (to_datetime s);
  to_datetime_fix s : Forall is_datetime s → to_datetime s = s;
  to_numeric_length s : length (to_numeric s) = length s;
  to_numeric_dtype s : Forall is_numeric (to_numeric s);
  to_numeric_fix s : Forall is_numeric s → to_numeric s = s
}.

(** ** The page, the session and the objects of a run *)

Record Alert := { alert_total : Qc; alert_budget : Qc; alert_overage : Qc }.

(** What a run of the script puts on the page.  Titles, headers and
    captions are left out, and numbers are kept as numbers where the page
    shows them with two decimals. *)
Inductive Element :=
  | SidebarSuccess (msg : string)
  | SidebarError (msg : string)
  | Info (msg : string)
  | BudgetAlert (a : Alert)
  | Metric (label : string) (value : option Qc)
  | MetricCount (label : string) (n : nat)
  | Table (df : DataFrame)
  | PieChart (s : list (cell * Qc))
  | BarChart (s : list (cell * Qc))
  | DownloadButton (report : list Sheet).

Global Instance Alert_eq_dec : EqDecision Alert.
Proof. solve_decision. Defined.
Global Instance Element_eq_dec : EqDecision Element.
Proof. solve_decision. Defined.

(** Frames are Python objects: [heap] holds the value of each by
    identity.  [session_df] and [session_budget] are the two entries of
    [st.session_state]. *)
Record World := {
  heap : gmap nat DataFrame;
  session_df : nat;
  session_budget : Qc;
  page : list Element
}.

Global Instance DataFrame_inhabited : Inhabited DataFrame :=
  populate {| columns := []; rows := [] |}.

Definition with_heap (h : gmap nat DataFrame) (w : World) : World :=
  {| heap := h; session_df := session_df w;
     session_budget := session_budget w; page := page w |}.

(** A piece of the script: it runs in a world, and returns or raises. *)
Definition Run (A : Type) : Type := World → Result A * World.

Global Instance Run_ret : MRet Run := λ A a w, (Ok a, w).
Global Instance Run_bind : MBind Run :=
  λ A B f m w, match m w with
               | (Ok a, w') => f a w'
               | (Err e, w') => (Err e, w')
               end.

Definition lift {A} (r : Result A) : Run A := λ w, (r, w).

(** [st.rerun()] leaves the run by an exception of Streamlit's. *)
Definition rerun : Run () := lift (Err RerunException).

Definition show (e : Element) : Run () :=
  λ w, (Ok (), {| heap := heap w; session_df := session_df w;
                  session_budget := session_budget w; page := page w ++ [e] |}).

Definition get_session_df : Run nat := λ w, (Ok (session_df w), w).
Definition get_session_budget : Run Qc := λ w, (Ok (session_budget w), w).

Definition set_session_df (df : nat) : Run () :=
  λ w, (Ok (), {| heap := heap w; session_df := df;
                  session_budget := session_budget w; page := page w |}).
Definition set_session_budget (b : Qc) : Run () :=
  λ w, (Ok (), {| heap := heap w; session_df := session_df w;
                  session_budget := b; page := page w |}).

(** The value of the frame a piece of script returns, if it returns. *)
Definition returned (rw : Result nat * World) : Result DataFrame :=
  match rw with
  | (Ok df, w) => Ok (heap w !!! df)
  | (Err e, _) => Err e
  end.

(** The methods of a frame, on the object: [setitem] changes the object
    in place, [copy], [dropna] and [concat] make a new one. *)
Module Obj.

Definition load (df : nat) : Run DataFrame := λ w, (Ok (heap w !!! df), w).

Definition store (df : nat) (v : DataFrame) : Run () :=
  λ w, (Ok (), with_heap (<[df := v]> (heap w)) w).

Definition new (v : DataFrame) : Run nat :=
  λ w, let df := fresh (dom (heap w)) in (Ok df, with_heap (<[df := v]> (heap w)) w).

Definition copy (df : nat) : Run nat := v ← load df; new v.

Definition getitem (df : nat) (c : string) : Run (list cell) :=
  v ← load df; lift (Frame.getitem v c).

Definition setitem (df : nat) (c : string) (s : list cell) : Run () :=
  v ← load df; store df (Frame.setitem v c s).

Definition get (df : nat) (c : string) (default : PyValue) : Run PyValue :=
  v ← load df; mret (Frame.get v c default).

Definition dropna (df : nat) : Run nat := v ← load df; new (Frame.dropna v).

Definition concat (a b : nat) : Run nat :=
  va ← load a; vb ← load b; new (Frame.concat va vb).

Definition columns (df : nat) : Run (list string) := v ← load df; mret (columns v).

Definition len (df : nat) : Run nat := v ← load df; mret (length (rows v)).

End Obj.

(** ** The program *)

Definition CATEGORIES : list string :=
  ["Food"; "Transport"; "Entertainment"; "Utilities"; "Health"; "Shopping"; "Other"]%string.

(** [lambda x: x if x in CATEGORIES else 'Other'] *)
Definition categorize (x : cell) : cell :=
  if decide (x ∈ Str <$> CATEGORIES) then x else Str "Other".

(** A [datetime.date], and [pd.to_datetime] of one: midnight of that day. *)
Record Date := { year : Z; month : Z; day : Z }.

Definition to_datetime_date (d : Date) : Timestamp :=
  {| ts_year := year d; ts_month := month d; ts_day := day d; ts_nanos := 0 |}.

(** The state of the sidebar widgets in one run. *)
Record Inputs := {
  expense_date : Date;
  category : string;
  amount : Qc;
  description : string;
  add_expense : bool;            (* "Add Expense" was pressed *)
  budget_input : Qc;
  set_budget : bool;             (* "Set Budget" was pressed *)
  uploaded_file : option string  (* the text of the uploaded file *)
}.

(** The session state of a first run: no record, budget 0. *)
Definition initial_world : World :=
  {| heap := {[ 0%nat := {| columns := ["Date"; "Category"; "Amount"; "Description"];
                            rows := [] |} ]};
     session_df := 0%nat;
     session_budget := 0%Qc;
     page := [] |}.

Definition new_row (i : Inputs) : DataFrame :=
  {| columns := ["Date"; "Category"; "Amount"; "Description"];
     rows := [ <["Date" := Time (to_datetime_date (expense_date i))]>
               (<["Category" := Str (category i)]>
               (<["Amount" := Num (amount i)]>
               (<["Description" := Str (if decide (description i = "")
                                        then "N/A" else description i)]> ∅))) ] |}.

Definition add_expense_handler (i : Inputs) : Run () :=
  if add_expense i then
    if decide (0 < amount i)%Qc then
      new_row ← Obj.new (new_row i);
      df ← get_session_df;
      df ← Obj.concat df new_row;
      set_session_df df;;
      show (SidebarSuccess "Added!");;
      rerun
    else show (SidebarError "Amount must be > 0")
  else mret ().

Definition budget_handler (i : Inputs) : Run () :=
  if set_budget i then
    set_session_budget (budget_input i);;
    rerun
  else mret ().

(** [monthly_total] and the alert of the block "Budget Alert", on the
    value of [df_clean]. *)
Definition budget_alert (budget : Qc) (df_clean : DataFrame) : Result (option Alert) :=
  if decide (0 < budget)%Qc then
    month ← Frame.getitem df_clean "Month";
    current_month ← series_max month;
    amount ← Frame.getitem
               (Frame.select_rows df_clean (eq_mask month current_month)) "Amount";
    monthly_total ← series_sum amount;
    if decide (budget < monthly_total)%Qc
    then Ok (Some {| alert_total := monthly_total; alert_budget := budget;
                     alert_overage := monthly_total - budget |})
    else Ok None
  else Ok None.

Definition total_spent (df_clean : DataFrame) : Result Qc :=
  Frame.getitem df_clean "Amount" ≫= series_sum.

Definition monthly_sum (df_clean : DataFrame) : Result (list (cell * Qc)) :=
  groupby_sum df_clean "Month" "Amount".

Definition cat_sum (df_clean : DataFrame) : Result (list (cell * Qc)) :=
  groupby_sum df_clean "Category" "Amount".

Definition avg_monthly (df_clean : DataFrame) : Result (option Qc) :=
  s ← groupby_sum df_clean "Month" "Amount"; Ok (series_mean s.*2).

Definition num_entries (df_clean : DataFrame) : nat := length (rows df_clean).

(** The workbook of the block "Export": its sheets in order. *)
Definition export_report (df_clean : DataFrame) : Result (list Sheet) :=
  let expenses := Frame.to_excel df_clean "Expenses" in
  summary_cat ← groupby_sum df_clean "Category" "Amount";
  summary_month ← groupby_sum df_clean "Month" "Amount";
  Ok [expenses;
      summary_to_excel summary_cat "Category" "Amount" "Category Summary";
      summary_to_excel summary_month "Month" "Amount" "Monthly Summary"].

Section program.
Context `{Pandas}.

Definition upload_handler (i : Inputs) : Run () :=
  match uploaded_file i with
  | None => mret ()
  | Some file =>
      df_upload ← lift (read_csv file) ≫= Obj.new;
      cols ← Obj.columns df_upload;
      if decide (Forall (λ col, col ∈ cols) ["Date"; "Category"; "Amount"]) then
        date ← Obj.getitem df_upload "Date";
        Obj.setitem df_upload "Date" (to_datetime date);;
        amount ← Obj.getitem df_upload "Amount";
        Obj.setitem df_upload "Amount" (to_numeric amount);;
        df_upload ← Obj.dropna df_upload;
        category ← Obj.getitem df_upload "Category";
        Obj.setitem df_upload "Category" (categorize <$> category);;
        description ← Obj.get df_upload "Description" (PyStr "N/A");
        description ← lift (fillna description (Str "N/A"));
        Obj.setitem df_upload "Description" description;;
        df ← get_session_df;
        df ← Obj.concat df df_upload;
        set_session_df df;;
        n ← Obj.len df_upload;
        show (SidebarSuccess ("Uploaded " +:+ pretty n +:+ " rows!"));;
        rerun
      else mret ()
  end.

(** The body of [clean_data], as it runs when called.  Its decorator
    [st.cache_data] is modelled by [cached_clean_data] below. *)
Definition clean_data (df : nat) : Run nat :=
  df ← Obj.copy df;
  date ← Obj.getitem df "Date";
  Obj.setitem df "Date" (to_datetime date);;
  amount ← Obj.getitem df "Amount";
  Obj.setitem df "Amount" (to_numeric amount);;
  df ← Obj.dropna df;
  category ← Obj.getitem df "Category";
  Obj.setitem df "Category" (categorize <$> category);;
  date ← Obj.getitem df "Date";
  month ← lift (dt_to_period date);
  Obj.setitem df "Month" month;;
  mret df.

(** The cleaned ledger of a raw ledger: the value of the frame that
    [clean_data] returns for a frame of that value. *)
Definition clean (raw : DataFrame) : Result DataFrame :=
  returned (clean_data 0%nat (with_heap {[ 0%nat := raw ]} initial_world)).

(** The main dashboard (the emoji of the messages are left out).  [show]
    records what a widget is given: the drawing of the charts and the
    writing of the workbook are not modelled, nor an exception of theirs;
    the sums are the exact ones, and [clean_data] is called by its body. *)
Definition dashboard : Run () :=
  df ← get_session_df;
  df_clean ← clean_data df;
  df_clean ← Obj.load df_clean;
  if Frame.empty df_clean then
    show (Info "Add expenses via sidebar or upload CSV to get started!")
  else
    budget ← get_session_budget;
    alert ← lift (budget_alert budget df_clean);
    from_option (λ a, show (BudgetAlert a)) (mret ()) alert;;
    total_spent ← lift (total_spent df_clean);
    show (Metric "Total Spent" (Some total_spent));;
    avg_monthly ← lift (avg_monthly df_clean);
    show (Metric "Avg Monthly" avg_monthly);;
    show (MetricCount "Entries" (num_entries df_clean));;
    table ← lift (Frame.select_columns df_clean
                    ["Date"; "Category"; "Amount"; "Description"]);
    show (Table table);;
    cat_sum ← lift (cat_sum df_clean);
    show (PieChart cat_sum);;
    monthly_sum ← lift (monthly_sum df_clean);
    show (BarChart monthly_sum);;
    report ← lift (export_report df_clean);
    show (DownloadButton report).

(** One run of the script, top to bottom. *)
Definition script (i : Inputs) : Run () :=
  add_expense_handler i;;
  budget_handler i;;
  upload_handler i;;
  dashboard.

End program.

(** ** A pandas for examples

    An instance of [Pandas] that reads what the examples need: dates
    written YYYY-MM-DD, decimal numbers, and comma-separated text without
    quoting.  Every other string is not a date, respectively not a
    number. *)

Definition digit (a : ascii) : option Z :=
  let n := Z.of_N (N_of_ascii a) in
  if decide (48 ≤ n ≤ 57) then Some (n - 48) else None.

Fixpoint digits_value (acc : Z) (s : string) : option Z :=
  match s with
  | EmptyString => Some acc
  | String a s' => d ← digit a; digits_value (10 * acc + d) s'
  end.

Definition parse_digits (s : string) : option Z :=
  if decide (s = EmptyString) then None else digits_value 0 s.

Fixpoint split_on (sep : ascii) (s : string) : list string :=
  match s with
  | EmptyString => [EmptyString]
  | String a s' =>
      if decide (a = sep) then EmptyString :: split_on sep s'
      else match split_on sep s' with
           | [] => [String a EmptyString]
           | w :: ws => String a w :: ws
           end
  end.

Definition days_in_month (y m : Z) : Z :=
  if decide (m = 2) then
    if decide (y mod 4 = 0 ∧ (y mod 100 ≠ 0 ∨ y mod 400 = 0)) then 29 else 28
  else if decide (m ∈ [4; 6; 9; 11]) then 30 else 31.

Definition parse_date (s : string) : option Timestamp :=
  match split_on "-" s with
  | [y; m; d] =>
      if decide (String.length y = 4%nat ∧ String.length m = 2%nat
                 ∧ String.length d = 2%nat)
      then y ← parse_digits y; m ← parse_digits m; d ← parse_digits d;
           if decide (1 ≤ m ≤ 12 ∧ 1 ≤ d ≤ days_in_month y m)
           then Some {| ts_year := y; ts_month := m; ts_day := d; ts_nanos := 0 |}
           else None
      else None
  | _ => None
  end.

Definition parse_unsigned (s : string) : option Qc :=
  match split_on "." s with
  | [i] => n ← parse_digits i; Some (Q2Qc (inject_Z n))
  | [i; f] =>
      n ← parse_digits i; m ← parse_digits f;
      let scale := 10 ^ Z.of_nat (String.length f) in
      Some (Q2Qc (Qmake (n * scale + m) (Z.to_pos scale)))
  | _ => None
  end.

Definition parse_number (s : string) : option Qc :=
  match s with
  | String "-" s' => Qcopp <$> parse_unsigned s'
  | _ => parse_unsigned s
  end.

Definition to_datetime_cell (c : cell) : cell :=
  match c with
  | Time t => Time t
  | Str s => from_option Time NA (parse_date s)
  | _ => NA
  end.

Definition to_numeric_cell (c : cell) : cell :=
  match c with
  | Num x => Num x
  | Str s => from_option Num NA (parse_number s)
  | _ => NA
  end.

(** A field of the file: empty is missing; in a column whose fields are
    all numbers or empty it is a number, else the text itself. *)
Definition csv_cell (numeric : bool) (field : string) : cell :=
  if decide (field = EmptyString) then NA
  else if numeric then from_option Num (Str field) (parse_number field)
  else Str field.

Definition csv_numeric (records : list (list string)) (j : nat) : bool :=
  forallb (λ r, let f := default EmptyString (r !! j) in
                bool_decide (f = EmptyString ∨ is_Some (parse_number f))) records.

Definition simple_read_csv (text : string) : Result DataFrame :=
  match split_on "," <$> filter (λ l, l ≠ EmptyString) (split_on "010" text) with
  | [] => Err (ParserError "No columns to parse from file")
  | header :: records =>
      Ok {| columns := header;
            rows := (λ r, reindex header
                            (list_to_map (zip header
                               (imap (λ j, csv_cell (csv_numeric records j)) r))))
                    <$> records |}
  end.

Global Program Instance simple_pandas : Pandas := {|
  read_csv := simple_read_csv;
  to_datetime := fmap to_datetime_cell;
  to_numeric := fmap to_numeric_cell
|}.
Next Obligation. intros s. apply length_fmap. Qed.
Next Obligation.
  intros s. apply Forall_fmap, Forall_true. intros [| s0 | | |]; simpl; try done.
  destruct (parse_date s0); done.
Qed.
Next Obligation.
  intros s Hs. induction Hs as [| c s Hc _ IH]; [done |].
  rewrite fmap_cons, IH. by destruct c.
Qed.
Next Obligation. intros s. apply length_fmap. Qed.
Next Obligation.
  intros s. apply Forall_fmap, Forall_true. intros [| s0 | | |]; simpl; try done.
  destruct (parse_number s0); done.
Qed.
Next Obligation.
  intros s Hs. induction Hs as [| c s Hc _ IH]; [done |].
  rewrite fmap_cons, IH. by destruct c.
Qed.

(** ** The notions of the specification *)

(** The fixed set of categories, as cells. *)
Definition is_category (c : cell) : Prop := c ∈ Str <$> CATEGORIES.

(** A record of a cleaned ledger: a date, a number, a category of the
    fixed set, and the year-month of the date. *)
Definition cleaned_row (r : gmap string cell) : Prop :=
  ∃ t x, r !! "Date" = Some (Time t)
       ∧ r !! "Amount" = Some (Num x)
       ∧ is_category (row_get r "Category")
       ∧ is_Some (r !! "Category")
       ∧ r !! "Month" = Some (Per (to_period_M t)).

Record Cleaned (df : DataFrame) : Prop := {
  cleaned_columns :
    Forall (λ c, c ∈ columns df) ["Date"; "Amount"; "Category"; "Month"];
  cleaned_rows : Forall cleaned_row (rows df);
  cleaned_notna : Forall (notna_row (columns df)) (rows df)
}.

(** What cleaning makes of a record it keeps, once its date and amount
    are parsed. *)
Definition clean_row (r : gmap string cell) : gmap string cell :=
  <["Month" := to_period_cell (row_get r "Date")]>
    (<["Category" := categorize (row_get r "Category")]> r).

(** Chronological order of year-months, as a relation. *)
Definition period_le (p q : Period) : Prop :=
  p_year p < p_year q ∨ (p_year p = p_year q ∧ p_month p ≤ p_month q).

(** The year-months of the records of a ledger. *)
Definition months (df : DataFrame) : list Period :=
  omap (λ r, per_value (row_get r "Month")) (rows df).

(** The sum of the amounts of the records of one month. *)
Definition month_spend (df : DataFrame) (k : cell) : Qc :=
  Qc_sum (omap (λ r, num_value (row_get r "Amount"))
            (filter (λ r, row_get r "Month" = k) (rows df))).

(** The amount of a record, 0 where it has none. *)
Definition amount_of (r : gmap string cell) : Qc :=
  default 0%Qc (num_value (row_get r "Amount")).

(** The months present in a ledger, each once. *)
Definition months_present (df : DataFrame) : list cell :=
  remove_dups ((λ r, row_get r "Month") <$> rows df).

Definition Qc_of_nat (n : nat) : Qc := Q2Qc (inject_Z (Z.of_nat n)).



(** The session ledger of a world. *)
Definition ledger (w : World) : DataFrame := heap w !!! session_df w.

(** The budget is as it was. *)
Definition same_budget (w w' : World) : Prop := session_budget w' = session_budget w.

(** The session ledger is the object it was, and every frame that existed
    has the value it had. *)
Definition same_frames (w w' : World) : Prop :=
  session_df w' = session_df w ∧ ∀ k, k ∈ dom (heap w) → heap w' !! k = heap w !! k.

Definition preserves (R : relation World) {A} (m : Run A) : Prop := ∀ w, R w (m w).2.

Section notions.
Context `{Pandas}.

(** The records of a raw ledger with their dates and amounts parsed. *)
Definition parsed_rows (raw : DataFrame) : list (gmap string cell) :=
  let rows1 := zip_with (λ r v, <["Date" := v]> r) (rows raw)
                 (to_datetime ((λ r, row_get r "Date") <$> rows raw)) in
  zip_with (λ r v, <["Amount" := v]> r) rows1
    (to_numeric ((λ r, row_get r "Amount") <$> rows1)).

(** The cleaned ledger, in one expression. *)
Definition cleaned_of (raw : DataFrame) : DataFrame :=
  {| columns := if decide ("Month" ∈ columns raw) then columns raw
                else columns raw ++ ["Month"];
     rows := clean_row <$> filter (notna_row (columns raw)) (parsed_rows raw) |}.

End notions.

(** ** Example inputs *)

(** Nothing pressed, no file chosen. *)
Definition idle : Inputs :=
  {| expense_date := {| year := 2024; month := 1; day := 1 |};
     category := "Food"; amount := 0%Qc; description := "";
     add_expense := false; budget_input := 0%Qc; set_budget := false;
     uploaded_file := None |}.

Definition upload (file : string) : Inputs :=
  {| expense_date := expense_date idle; category := category idle;
     amount := amount idle; description := description idle;
     add_expense := false; budget_input := 0%Qc; set_budget := false;
     uploaded_file := Some file |}.

Definition add (d : Date) (c : string) (a : Qc) (text : string) : Inputs :=
  {| expense_date := d; category := c; amount := a; description := text;
     add_expense := true; budget_input := 0%Qc; set_budget := false;
     uploaded_file := None |}.

(** Every run draws the page anew. *)
Definition start_run (w : World) : World :=
  {| heap := heap w; session_df := session_df w;
     session_budget := session_budget w; page := [] |}.

(** The world a run leaves, with the pandas of the examples. *)
Definition after (i : Inputs) (w : World) : World :=
  (script (H := simple_pandas) i (start_run w)).2.

(** The records of a frame as rows of cells, in the order of its columns. *)
Definition records (df : DataFrame) : list (list cell) :=
  (λ r, row_get r <$> columns df) <$> rows df.

Definition first_sheet (report : Result (list Sheet)) : option Sheet :=
  match report with
  | Ok (s :: _) => Some s
  | _ => None
  end.

(** The ledger of the specification's example: two records of January
    2024, then one of February. *)
Definition january : World :=
  after (add {| year := 2024; month := 1; day := 20 |} "Food" (Q2Qc 30) "")
    (after (add {| year := 2024; month := 1; day := 5 |} "Food" (Q2Qc 50) "lunch")
       initial_world).

Definition february : World :=
  after (add {| year := 2024; month := 2; day := 1 |} "Transport" (Q2Qc 20) "")
    january.


Definition refund_csv : string :=
  "Date,Category,Amount,Description
2024-03-01,Food,-5,refund
".

Definition march_csv : string :=
  "Date,Category,Amount
2024-03-01,Food,15.5
bad-date,Food,10
".

Definition blank_description_csv : string :=
  "Date,Category,Amount,Description
2024-03-01,Food,15.5,
".

Definition no_amount_csv : string :=
  "Date,Category
2024-03-01,Food
".

Definition day_2024 (m d : Z) : cell :=
  Time {| ts_year := 2024; ts_month := m; ts_day := d; ts_nanos := 0 |}.

Definition month_2024 (m : Z) : cell := Per {| p_year := 2024; p_month := m |}.

(** ** Sessions, imports and summaries *)

(** The columns of the ledger of a new session (line 13), which are also
    those of the table (line 100). *)
Definition ledger_columns : list string :=
  ["Date"; "Category"; "Amount"; "Description"].

(** The session ledger is a frame that exists. *)
Definition wf (w : World) : Prop := session_df w ∈ dom (heap w).

(** The session ledger exists and has the columns of a new session. *)
Definition session_ok (w : World) : Prop :=
  wf w ∧ Forall (λ c, c ∈ columns (ledger w)) ledger_columns.

Global Instance wf_dec w : Decision (wf w).
Proof. unfold wf. apply _. Defined.
Global Instance session_ok_dec w : Decision (session_ok w).
Proof. unfold session_ok. apply _. Defined.

(** The session is in a good state if it was. *)
Definition keeps_ok (w w' : World) : Prop := session_ok w → session_ok w'.

(** A record with a date, an amount and no missing value in the columns
    [cols]. *)
Definition valid_row (cols : list string) (r : gmap string cell) : Prop :=
  (∃ t, r !! "Date" = Some (Time t)) ∧ (∃ x, r !! "Amount" = Some (Num x))
  ∧ notna_row cols r.

Global Instance valid_row_dec cols r : Decision (valid_row cols r).
Proof.
  unfold valid_row.
  refine (match r !! "Date" as o, r !! "Amount" as o'
                return Decision ((∃ t, o = Some (Time t)) ∧ (∃ x, o' = Some (Num x)) ∧ _)
          with
          | Some (Time t), Some (Num x) =>
              match decide (notna_row cols r) with
              | left H => left _
              | right H => right _
              end
          | _, _ => right _
          end); try (intros ([? ?] & [? ?] & ?); congruence); eauto.
Defined.

(** How a record [r] that cleaning or an import keeps relates to the
    record [r0] of the frame [raw] it comes from: [r0] has no missing
    value outside its date and amount, [r] has the category of [r0]
    normalized, and whatever else [r0] has as it is. *)
Definition kept_from (raw : DataFrame) (r0 r : gmap string cell) : Prop :=
  (∀ c, c ∈ columns raw → c ≠ "Date" → c ≠ "Amount" → row_get r0 c ≠ NA)
  ∧ (∀ c, c ∉ ["Date"; "Amount"; "Category"; "Month"] → r !! c = r0 !! c)
  ∧ row_get r "Category" = categorize (row_get r0 "Category").


(** The sum of the amounts of the records of one category. *)
Definition category_spend (df : DataFrame) (k : cell) : Qc :=
  Qc_sum (omap (λ r, num_value (row_get r "Amount"))
            (filter (λ r, row_get r "Category" = k) (rows df))).

(** What [budget_alert] puts on the page. *)
Definition alert_elements (a : option Alert) : list Element :=
  from_option (λ a, [BudgetAlert a]) [] a.

(** Elements of the sidebar: the notices of the handlers. *)
Definition is_notice (e : Element) : Prop :=
  match e with SidebarSuccess _ | SidebarError _ => True | _ => False end.

Section sessions.
Context `{Pandas}.

(** What an upload appends for a file read as [df]: the records with no
    missing value once dates and amounts are parsed, their categories
    normalized. *)
Definition imported_of (df : DataFrame) : DataFrame :=
  {| columns := columns df;
     rows := (λ r, <["Category" := categorize (row_get r "Category")]> r)
               <$> filter (notna_row (columns df)) (parsed_rows df) |}.

(** The session after a series of runs from a new session, each with its
    own inputs. *)
Definition runs (inputs : list Inputs) : World :=
  foldl (λ w i, (script i (start_run w)).2) initial_world inputs.

(** The session after [k] more runs with the same inputs. *)
Definition again (i : Inputs) (k : nat) (w : World) : World :=
  Nat.iter k (λ w, (script i (start_run w)).2) w.

End sessions.

(** The frame the examples' pandas reads from a file. *)
Definition csv_frame (file : string) : DataFrame :=
  match simple_read_csv file with
  | Ok df => df
  | Err _ => {| columns := []; rows := [] |}
  end.

(** A file with a column the ledger does not have. *)
Definition notes_csv : string :=
  "Date,Category,Amount,Description,Notes
2024-03-01,Food,15.5,lunch,team
".

(** The handlers of the sidebar (lines 21-62), which run before the
    dashboard. *)
Definition sidebar `{Pandas} (i : Inputs) : Run () :=
  add_expense_handler i;;
  budget_handler i;;
  upload_handler i.

(** A file with a blank description, a date that is none, and a category
    outside the fixed set. *)
Definition mixed_csv : string :=
  "Date,Category,Amount,Description
2024-03-01,Food,15.5,lunch
2024-03-02,Food,3,
bad-date,Food,10,dinner
2024-03-04,Snacks,2,bar
".

(** ** The cache of [clean_data]

    [st.cache_data] (line 65) keeps the results of [clean_data] under a
    hash of the argument, and returns a stored result without running the
    function.  Streamlit hashes a frame of fewer than 50,000 rows by its
    shape, its column types and all its rows; of a larger frame it hashes
    the shape, the column types and 10,000 rows only, drawn by
    [df.sample(n=10000, random_state=0)]: the positions drawn depend on
    the number of rows alone.  The hash is taken to tell apart any two
    things fed to it. *)
Class Streamlit := {
  sample : nat → list nat;
  sample_length n : 50000 ≤ Z.of_nat n → Z.of_nat (length (sample n)) = 10000
}.

Inductive Dtype := Datetime64 | Float64 | PeriodM | Object.

Global Instance Dtype_eq_dec : EqDecision Dtype.
Proof. solve_decision. Defined.

(** The type pandas gives a column, by its cells. *)
Definition dtype (s : list cell) : Dtype :=
  if decide (Forall is_datetime s) then Datetime64
  else if decide (Forall is_numeric s) then Float64
  else if decide (Forall is_period s) then PeriodM
  else Object.

(** [df.dtypes]: the labels of the columns, each with its type. *)
Definition dtypes (df : DataFrame) : list (string * Dtype) :=
  (λ c, (c, dtype ((λ r, row_get r c) <$> rows df))) <$> columns df.

(** What the hash of a frame is computed from: the shape, the column
    types, and the rows hashed, each with its position. *)
Inductive CacheKey :=
  | Hashed (shape : nat * nat) (types : list (string * Dtype))
           (hashed_rows : list (nat * option (gmap string cell))).

Global Instance CacheKey_eq_dec : EqDecision CacheKey.
Proof. solve_decision. Defined.

(** The results stored, latest first. *)
Definition Cache : Type := list (CacheKey * DataFrame).

Definition cache_lookup (k : CacheKey) (cache : Cache) : option DataFrame :=
  snd <$> head (filter (λ e, e.1 = k) cache).

Section cache.
Context `{Pandas} `{Streamlit}.

Definition cache_key (df : DataFrame) : CacheKey :=
  let n := length (rows df) in
  Hashed (n, length (columns df)) (dtypes df)
    ((λ i, (i, rows df !! i))
       <$> (if decide (Z.of_nat n < 50000) then seq 0 n else sample n)).

(** A call of the decorated [clean_data], on the value of its argument:
    a result stored under the hash of the argument is returned as it is;
    otherwise the function runs, and its result is stored if it returns. *)
Definition cached_clean_data (cache : Cache) (df : DataFrame)
    : Result DataFrame * Cache :=
  let k := cache_key df in
  match cache_lookup k cache with
  | Some df_clean => (Ok df_clean, cache)
  | None =>
      match clean df with
      | Ok df_clean => (Ok df_clean, (k, df_clean) :: cache)
      | Err e => (Err e, cache)
      end
  end.

(** Every stored result is the cleaned form of a frame with its key. *)
Definition cache_sound (cache : Cache) : Prop :=
  Forall (λ e, ∃ df, cache_key df = e.1 ∧ clean df = Ok e.2) cache.

End cache.

(** A Streamlit for examples: it samples the first 10,000 rows. *)
Global Program Instance first_rows : Streamlit := {|
  sample n := seq 0 (Z.to_nat 10000)
|}.
Next Obligation. intros n _. cbv beta. rewrite length_seq. by apply Z2Nat.id. Qed.

(** One lunch, of any amount. *)
Definition lunch (a : Qc) : gmap string cell :=
  <["Date" := day_2024 1 5]>
    (<["Category" := Str "Food"]>
    (<["Amount" := Num a]>
    (<["Description" := Str "lunch"]> ∅))).

(** A ledger of [n] lunches of 1 each. *)
Definition lunches (n : nat) : DataFrame :=
  {| columns := ledger_columns; rows := replicate n (lunch (Q2Qc 1)) |}.

(** The same ledger, but for the lunch at position [p], which is of 2. *)
Definition lunches_but (n p : nat) : DataFrame :=
  {| columns := ledger_columns;
     rows := <[p := lunch (Q2Qc 2)]> (rows (lunches n)) |}.

(** ** Sums as pandas computes them

    pandas holds the amounts as float64 and adds them in IEEE 754
    binary64, every addition rounded to the nearest float.  A cell [Num x]
    stands for the number written [x]; the float pandas holds for it is
    the one nearest to [x].  The definitions of [F64] are those of
    [series_sum], [groupby_sum], [budget_alert], [total_spent], [cat_sum]
    and [monthly_sum] above, with this arithmetic in place of the exact
    one.  (A column of whole numbers only, read from a file and not yet
    joined to an entry of the form, is int64; the columns here are
    float64, as [number_input] makes them.) *)

(** [s.sum()] of a float64 column of 8 or more numbers: numpy adds these
    in blocks, in an order that is taken as given. *)
Class Numpy := { blocked_sum : list spec_float → spec_float }.

Global Instance spec_float_eq_dec : EqDecision spec_float.
Proof. solve_decision. Defined.

Module F64.

Definition prec : Z := 53.
Definition emax : Z := 1024.

Definition zero : spec_float := S754_zero false.
Definition add : spec_float → spec_float → spec_float := SFadd prec emax.
Definition sub : spec_float → spec_float → spec_float := SFsub prec emax.
Definition div : spec_float → spec_float → spec_float := SFdiv prec emax.

(** [x < y] *)
Definition ltb : spec_float → spec_float → bool := SFltb.

(** [x != x], which holds of NaN only. *)
Definition is_nan (x : spec_float) : bool :=
  match x with S754_nan => true | _ => false end.

(** The float nearest to a rational: the value of [float] and of
    [number_input] for a number written in decimal. *)
Definition of_Qc (q : Qc) : spec_float :=
  match Qnum q with
  | Z0 => zero
  | Zpos n => div (S754_finite false n 0) (S754_finite false (Qden q) 0)
  | Zneg n => div (S754_finite true n 0) (S754_finite false (Qden q) 0)
  end.

(** The rational that a finite float is. *)
Definition to_Q (x : spec_float) : Q :=
  match x with
  | S754_finite s m e => (if s then -1 else 1) * inject_Z (Z.pos m) * 2 ^ e
  | _ => 0
  end%Q.

Definition value (c : cell) : option spec_float :=
  match c with Num x => Some (of_Qc x) | _ => None end.

(** [s.sum()] of a numeric series; missing values are skipped.  numpy
    adds fewer than 8 numbers from left to right, starting from 0. *)
Definition series_sum `{Numpy} (s : list cell) : Result spec_float :=
  if decide (Forall is_numeric s)
  then let xs := omap value s in
       Ok (if decide (length xs < 8)%nat then foldl add zero xs else blocked_sum xs)
  else Err (TypeError "unsupported operand type(s) for +").

(** The sum of one group of [groupby(...).sum()]: pandas adds the values
    of the group in the order of the records, and carries a compensation
    for the rounding of each addition (Kahan's summation). *)
Definition kahan_step (acc : spec_float * spec_float) (val : spec_float)
    : spec_float * spec_float :=
  let '(sumx, compensation) := acc in
  let y := sub val compensation in
  let t := add sumx y in
  let compensation := sub (sub t sumx) y in
  (t, if is_nan compensation then zero else compensation).

Definition group_sum (xs : list spec_float) : spec_float :=
  (foldl kahan_step (zero, zero) xs).1.

(** The values of the records of key [k]; a missing value adds nothing. *)
Definition group_values (keys vals : list cell) (k : cell) : list spec_float :=
  omap (λ kv, if decide (kv.1 = k) then value kv.2 else None) (zip keys vals).

(** [df.groupby(key)[val].sum()]: one entry per distinct key, keys sorted,
    each with the sum of the values of its records. *)
Definition groupby_sum (df : DataFrame) (key val : string)
    : Result (list (cell * spec_float)) :=
  keys ← Frame.getitem df key;
  vals ← Frame.getitem df val;
  if decide (Forall is_numeric vals)
  then Ok ((λ k, (k, group_sum (group_values keys vals k))) <$>
             merge_sort cell_le (remove_dups (filter (λ k, k ≠ NA) keys)))
  else Err (TypeError "agg function failed [how->sum,dtype->object]").

Record Alert := {
  alert_total : spec_float;
  alert_budget : spec_float;
  alert_overage : spec_float
}.

(** [monthly_total] and the alert of the block "Budget Alert" (lines
    83-87), for the budget that [number_input] returned. *)
Definition budget_alert `{Numpy} (budget : spec_float) (df_clean : DataFrame)
    : Result (option Alert) :=
  if ltb zero budget then
    month ← Frame.getitem df_clean "Month";
    current_month ← series_max month;
    amount ← Frame.getitem
               (Frame.select_rows df_clean (eq_mask month current_month)) "Amount";
    monthly_total ← series_sum amount;
    if ltb budget monthly_total
    then Ok (Some {| alert_total := monthly_total; alert_budget := budget;
                     alert_overage := sub monthly_total budget |})
    else Ok None
  else Ok None.

(** [df_clean['Amount'].sum()] (line 91) *)
Definition total_spent `{Numpy} (df_clean : DataFrame) : Result spec_float :=
  Frame.getitem df_clean "Amount" ≫= series_sum.

(** [df_clean.groupby('Category')['Amount'].sum()] (line 109) *)
Definition cat_sum (df_clean : DataFrame) : Result (list (cell * spec_float)) :=
  groupby_sum df_clean "Category" "Amount".

(** [df_clean.groupby('Month')['Amount'].sum()] (line 117) *)
Definition monthly_sum (df_clean : DataFrame) : Result (list (cell * spec_float)) :=
  groupby_sum df_clean "Month" "Amount".

End F64.

Global Instance F64_Alert_eq_dec : EqDecision F64.Alert.
Proof. solve_decision. Defined.

(** 0.10 and 0.20 entered in January 2024. *)
Definition tenths : World :=
  after (add {| year := 2024; month := 1; day := 6 |} "Transport" (Q2Qc (2 # 10)) "bus")
    (after (add {| year := 2024; month := 1; day := 5 |} "Food" (Q2Qc (1 # 10)) "gum")
       initial_world).

(** 0.20 on food, 0.10 on transport and 0.30 on food, in this order. *)
Definition fifths : World :=
  after (add {| year := 2024; month := 1; day := 7 |} "Food" (Q2Qc (3 # 10)) "")
    (after (add {| year := 2024; month := 1; day := 6 |} "Transport" (Q2Qc (1 # 10)) "")
       (after (add {| year := 2024; month := 1; day := 5 |} "Food" (Q2Qc (2 # 10)) "")
          initial_world)).

(** * Proofs *)

(** Closed decidable goals, by evaluation. *)
Ltac vm_decide :=
  intros;
  lazymatch goal with
  | |- ?P => refine (@bool_decide_unpack P _ _); vm_compute; exact I
  end.

(** ** Objects and frames *)

Lemma heap_with_heap h w : heap (with_heap h w) = h.
Proof. done. Qed.

Lemma dom_insert_mono (h : gmap nat DataFrame) l v k :
  k ∈ dom h → k ∈ dom (<[l := v]> h).
Proof. rewrite dom_insert_L. set_solver. Qed.

Lemma insert_fresh_frame (h : gmap nat DataFrame) v k :
  k ∈ dom h → <[fresh (dom h) := v]> h !! k = h !! k.
Proof.
  intros Hk. apply lookup_insert_ne. intros <-. exact (is_fresh _ Hk).
Qed.

Lemma insert2_fresh_frame (h : gmap nat DataFrame) v v' k :
  k ∈ dom h →
  <[fresh (dom (<[fresh (dom h) := v]> h)) := v']> (<[fresh (dom h) := v]> h) !! k
  = h !! k.
Proof.
  intros Hk. rewrite lookup_insert_ne.
  - by apply insert_fresh_frame.
  - intros Heq. apply (dom_insert_mono _ (fresh (dom h)) v) in Hk.
    rewrite <- Heq in Hk. exact (is_fresh _ Hk).
Qed.

Lemma fresh2_not_in (h : gmap nat DataFrame) v :
  fresh (dom (<[fresh (dom h) := v]> h)) ∉ dom h.
Proof.
  intros Hk. apply (dom_insert_mono _ (fresh (dom h)) v) in Hk.
  exact (is_fresh _ Hk).
Qed.

Lemma DataFrame_eta df : {| columns := columns df; rows := rows df |} = df.
Proof. by destruct df. Qed.

Lemma getitem_Ok df c s :
  Frame.getitem df c = Ok s ↔ c ∈ columns df ∧ s = (λ r, row_get r c) <$> rows df.
Proof.
  unfold Frame.getitem. case_decide; split.
  - intros [= <-]. done.
  - intros [_ ->]. done.
  - done.
  - intros [? _]. done.
Qed.

Lemma getitem_elem df c :
  c ∈ columns df → Frame.getitem df c = Ok ((λ r, row_get r c) <$> rows df).
Proof. intros. by apply getitem_Ok. Qed.

Lemma setitem_columns df c s :
  c ∈ columns df → columns (Frame.setitem df c s) = columns df.
Proof. intros. simpl. by rewrite decide_True. Qed.

Lemma zip_with_fmap_same {A B C} (f : A → B → C) (g : A → B) (l : list A) :
  zip_with f l (g <$> l) = (λ x, f x (g x)) <$> l.
Proof. by rewrite zip_with_fmap_r, zip_with_diag. Qed.

Lemma Forall2_zip_with {A B C} (f : A → B → C) (P : B → Prop) l k :
  length l = length k → Forall P k →
  Forall2 (λ x z, ∃ y, P y ∧ z = f x y) l (zip_with f l k).
Proof.
  intros Hlen Hk. revert l Hlen.
  induction Hk as [| y k Hy _ IH]; intros [| x l] Hlen; simplify_eq/=.
  - constructor.
  - constructor; [by exists y | by apply IH].
Qed.

(** Assigning to a column the values it has changes nothing. *)
Lemma setitem_same df c :
  c ∈ columns df → Forall (λ r, is_Some (r !! c)) (rows df) →
  Frame.setitem df c ((λ r, row_get r c) <$> rows df) = df.
Proof.
  destruct df as [cols rs]; simpl. intros Hc Hrows.
  unfold Frame.setitem; simpl. rewrite decide_True by done.
  rewrite zip_with_fmap_same. f_equal.
  transitivity (id <$> rs); [| apply list_fmap_id].
  apply Forall_fmap_ext_1. eapply Forall_impl; [exact Hrows |].
  intros r [v Hv]; simpl. unfold row_get. rewrite Hv; simpl. by apply insert_id.
Qed.

Lemma dropna_same df :
  Forall (notna_row (columns df)) (rows df) → Frame.dropna df = df.
Proof.
  destruct df as [cols rs]; simpl. intros Hna.
  unfold Frame.dropna; simpl. f_equal.
  induction Hna as [| r l Hr _ IH]; [done |].
  by rewrite filter_cons_True, IH.
Qed.

Lemma Forall2_zip_with2 {A B} (f g : A → B → A) (P Q : B → Prop) (l : list A) k1 k2 :
  length k1 = length l → length k2 = length l → Forall P k1 → Forall Q k2 →
  Forall2 (λ x z, ∃ y1 y2, P y1 ∧ Q y2 ∧ z = g (f x y1) y2) l
    (zip_with g (zip_with f l k1) k2).
Proof.
  revert k1 k2. induction l as [| x l IH]; intros [| y1 k1] [| y2 k2] ?? H1 H2;
    simplify_eq/=; [constructor |].
  apply Forall_cons_1 in H1 as [? ?], H2 as [? ?].
  constructor; [by exists y1, y2 | by apply IH].
Qed.

Lemma setitem_fmap df c c' (g : cell → cell) :
  rows (Frame.setitem df c (g <$> ((λ r, row_get r c') <$> rows df)))
  = (λ r, <[c := g (row_get r c')]> r) <$> rows df.
Proof. simpl. by rewrite <- list_fmap_compose, zip_with_fmap_same. Qed.

Lemma getitem_not_elem df c : c ∉ columns df → Frame.getitem df c = Err (KeyError c).
Proof. intros. unfold Frame.getitem. by rewrite decide_False. Qed.

Lemma bind_Ok {A B} (a : A) (f : A → Result B) : Ok a ≫= f = f a.
Proof. done. Qed.

Lemma bind_Err {A B} e (f : A → Result B) : Err e ≫= f = Err e.
Proof. done. Qed.

Lemma Forall_filter_mono {A} (P Q : A → Prop) `{!∀ x, Decision (P x)} (l : list A) :
  Forall Q l → Forall Q (filter P l).
Proof.
  rewrite !Forall_forall. intros HQ x [_ Hx]%list_elem_of_filter. by apply HQ.
Qed.

Lemma row_get_insert_ne r c c' v : c ≠ c' → row_get (<[c := v]> r) c' = row_get r c'.
Proof. intros. unfold row_get. by rewrite lookup_insert_ne. Qed.

Lemma row_get_insert r c v : row_get (<[c := v]> r) c = v.
Proof. unfold row_get. by rewrite lookup_insert_eq. Qed.

Section cleaning.
Context `{Pandas}.

Let pipeline (raw : DataFrame) : Result DataFrame :=
  date ← Frame.getitem raw "Date";
  let df := Frame.setitem raw "Date" (to_datetime date) in
  amount ← Frame.getitem df "Amount";
  let df := Frame.dropna (Frame.setitem df "Amount" (to_numeric amount)) in
  category ← Frame.getitem df "Category";
  let df := Frame.setitem df "Category" (categorize <$> category) in
  date ← Frame.getitem df "Date";
  month ← dt_to_period date;
  Ok (Frame.setitem df "Month" month).

Lemma clean_data_run df w :
  ∃ r h', clean_data df w = (r, with_heap h' w)
    ∧ (∀ k, k ∈ dom (heap w) → h' !! k = heap w !! k)
    ∧ match r with
      | Ok df' => (df' ∉ dom (heap w)) ∧ pipeline (heap w !!! df) = Ok (h' !!! df')
      | Err e => pipeline (heap w !!! df) = Err e
      end.
Proof.
  unfold clean_data, pipeline, Obj.copy, Obj.getitem, Obj.setitem, Obj.dropna,
    Obj.load, Obj.store, Obj.new, lift.
  unfold mbind, Run_bind, Result_bind, mret, Run_ret. simpl.
  set (v0 := heap w !!! df).
  rewrite ?lookup_total_insert_eq.
  destruct (Frame.getitem v0 "Date") as [date | e]; simpl.
  2: { eexists _, _. split; [done |]. split; [| done].
       intros k Hk. by apply insert_fresh_frame. }
  rewrite ?lookup_total_insert_eq, ?insert_insert_eq.
  destruct (Frame.getitem _ "Amount") as [amount | e]; simpl.
  2: { eexists _, _. split; [done |]. split; [| done].
       intros k Hk. by apply insert_fresh_frame. }
  rewrite ?lookup_total_insert_eq, ?insert_insert_eq.
  destruct (Frame.getitem _ "Category") as [category | e]; simpl.
  2: { eexists _, _. split; [done |]. split; [| done].
       intros k Hk. by apply insert2_fresh_frame. }
  rewrite ?lookup_total_insert_eq, ?insert_insert_eq.
  destruct (Frame.getitem _ "Date") as [date' | e]; simpl.
  2: { eexists _, _. split; [done |]. split; [| done].
       intros k Hk. by apply insert2_fresh_frame. }
  destruct (dt_to_period date') as [month | e]; simpl.
  2: { eexists _, _. split; [done |]. split; [| done].
       intros k Hk. by apply insert2_fresh_frame. }
  rewrite ?lookup_total_insert_eq, ?insert_insert_eq.
  eexists _, _. split; [done |]. split.
  - intros k Hk. by apply insert2_fresh_frame.
  - split; [apply fresh2_not_in |]. by rewrite lookup_total_insert_eq.
Qed.

Lemma clean_unfold raw : clean raw = pipeline raw.
Proof.
  unfold clean.
  destruct (clean_data_run 0%nat (with_heap {[0%nat := raw]} initial_world))
    as (r & h' & -> & _ & Hr).
  rewrite heap_with_heap, lookup_total_singleton_eq in Hr.
  destruct r as [df' | e]; [by destruct Hr as [_ ->] | done].
Qed.

(** What [clean_data] returns depends on the value of its argument only. *)
Lemma clean_data_returned df w : returned (clean_data df w) = clean (heap w !!! df).
Proof.
  rewrite clean_unfold.
  destruct (clean_data_run df w) as (r & h' & -> & _ & Hr).
  destruct r as [df' | e]; simpl; [by destruct Hr as [_ ->] | done].
Qed.

Lemma parsed_rows_spec raw :
  Forall2 (λ r0 r2, ∃ d a, is_datetime d ∧ is_numeric a
                        ∧ r2 = <["Amount" := a]> (<["Date" := d]> r0))
    (rows raw) (parsed_rows raw).
Proof.
  apply (Forall2_zip_with2 (λ r v, <["Date" := v]> r) (λ r v, <["Amount" := v]> r)
           is_datetime is_numeric).
  - by rewrite to_datetime_length, length_fmap.
  - rewrite to_numeric_length, length_fmap, length_zip_with.
    rewrite to_datetime_length, length_fmap. lia.
  - apply to_datetime_dtype.
  - apply to_numeric_dtype.
Qed.

Lemma parsed_rows_date raw :
  Forall (λ r, is_datetime (row_get r "Date")) (parsed_rows raw).
Proof.
  apply Forall_forall. intros r [i Hi]%list_elem_of_lookup.
  destruct (Forall2_lookup_r _ _ _ _ _ (parsed_rows_spec raw) Hi)
    as (r0 & _ & d & a & Hd & Ha & ->).
  by rewrite row_get_insert_ne, row_get_insert.
Qed.

Lemma clean_eq raw :
  clean raw =
    if decide (Forall (λ c, c ∈ columns raw) ["Date"; "Amount"; "Category"])
    then Ok (cleaned_of raw)
    else Err (KeyError (default "" (head (filter (λ c, c ∉ columns raw)
                                            ["Date"; "Amount"; "Category"])))).
Proof.
  rewrite clean_unfold. unfold pipeline.
  destruct (decide ("Date" ∈ columns raw)) as [Hdate | Hdate].
  2: { rewrite getitem_not_elem, bind_Err by done.
       rewrite decide_False; [| by intros [? _]%Forall_cons].
       by rewrite filter_cons_True. }
  rewrite getitem_elem, bind_Ok by done. cbv zeta.
  set (df1 := Frame.setitem raw "Date" _).
  assert (Hc1 : columns df1 = columns raw) by by apply setitem_columns.
  destruct (decide ("Amount" ∈ columns raw)) as [Hamount | Hamount].
  2: { rewrite getitem_not_elem, bind_Err by by rewrite Hc1.
       rewrite decide_False; [| by intros [_ [? _]%Forall_cons]%Forall_cons].
       rewrite filter_cons_False by (by intros ?). by rewrite filter_cons_True. }
  rewrite getitem_elem, bind_Ok by by rewrite Hc1. cbv zeta.
  set (df2 := Frame.setitem df1 "Amount" _).
  assert (Hc2 : columns df2 = columns raw).
  { subst df2. rewrite setitem_columns; [done | by rewrite Hc1]. }
  assert (Hr2 : rows df2 = parsed_rows raw) by done.
  set (df3 := Frame.dropna df2).
  assert (Hc3 : columns df3 = columns raw) by done.
  assert (Hr3 : rows df3 = filter (notna_row (columns raw)) (parsed_rows raw)).
  { subst df3. unfold Frame.dropna. cbn [rows]. by rewrite Hc2, Hr2. }
  destruct (decide ("Category" ∈ columns raw)) as [Hcat | Hcat].
  2: { rewrite getitem_not_elem, bind_Err by by rewrite Hc3.
       rewrite decide_False;
         [| by intros [_ [_ [? _]%Forall_cons]%Forall_cons]%Forall_cons].
       rewrite !filter_cons_False by (by intros ?). by rewrite filter_cons_True. }
  rewrite getitem_elem, bind_Ok by by rewrite Hc3. cbv zeta.
  rewrite decide_True by by repeat constructor.
  set (df4 := Frame.setitem df3 "Category" _).
  assert (Hc4 : columns df4 = columns raw).
  { subst df4. rewrite setitem_columns; [done | by rewrite Hc3]. }
  assert (Hr4 : rows df4 = (λ r, <["Category" := categorize (row_get r "Category")]> r)
                             <$> rows df3) by apply setitem_fmap.
  rewrite getitem_elem, bind_Ok by by rewrite Hc4.
  unfold dt_to_period. rewrite decide_True.
  2: { rewrite Hr4, Hr3, <- list_fmap_compose. apply Forall_fmap.
       apply Forall_filter_mono. eapply Forall_impl; [apply parsed_rows_date |].
       intros r Hr; simpl. by rewrite row_get_insert_ne. }
  rewrite bind_Ok. f_equal. unfold cleaned_of.
  rewrite <- (DataFrame_eta (Frame.setitem df4 _ _)). f_equal.
  - unfold Frame.setitem at 1. cbn [columns]. by rewrite Hc4.
  - rewrite setitem_fmap, Hr4, Hr3, <- list_fmap_compose.
    apply list_fmap_ext. intros _ r _. unfold clean_row; simpl.
    by rewrite row_get_insert_ne.
Qed.
Lemma clean_inv raw dfc :
  clean raw = Ok dfc →
  Forall (λ c, c ∈ columns raw) ["Date"; "Amount"; "Category"] ∧ dfc = cleaned_of raw.
Proof.
  rewrite clean_eq. case_decide; [| done]. by intros [= <-].
Qed.

Lemma categorize_is_category x : is_category (categorize x).
Proof.
  unfold categorize, is_category. case_decide; [done |].
  unfold CATEGORIES. set_solver.
Qed.

Lemma is_category_Str x : is_category x → ∃ s, x = Str s ∧ s ∈ CATEGORIES.
Proof. unfold is_category. intros (s & -> & Hs)%list_elem_of_fmap. eauto. Qed.

Lemma categorize_fix x : is_category x → categorize x = x.
Proof. intros. unfold categorize. by rewrite decide_True. Qed.

Lemma clean_Cleaned raw dfc : clean raw = Ok dfc → Cleaned dfc.
Proof.
  intros [Hcols ->]%clean_inv.
  assert (Hrows2 := parsed_rows_spec raw).
  assert (Hc : columns (cleaned_of raw) =
                 if decide ("Month" ∈ columns raw) then columns raw
                 else columns raw ++ ["Month"]) by done.
  assert (Hr : rows (cleaned_of raw) =
                 clean_row <$> filter (notna_row (columns raw)) (parsed_rows raw))
    by done.
  revert Hrows2 Hc Hr.
  generalize (parsed_rows raw) (cleaned_of raw). intros rows2 dfc Hrows2 Hc Hr.
  apply Forall_cons in Hcols as [Hdate Hcols].
  apply Forall_cons in Hcols as [Hamount Hcols].
  apply Forall_cons in Hcols as [Hcat _].
  assert (Hsub : ∀ c, c ∈ columns raw → c ∈ columns dfc).
  { intros c ?. rewrite Hc. case_decide; [done | apply elem_of_app; by left]. }
  assert (Hrow : ∀ r, r ∈ filter (notna_row (columns raw)) rows2 →
            cleaned_row (clean_row r) ∧ notna_row (columns dfc) (clean_row r)).
  { intros r [Hna Hin]%list_elem_of_filter.
    apply list_elem_of_lookup in Hin as [i Hi].
    destruct (Forall2_lookup_r _ _ _ _ _ Hrows2 Hi)
      as (r0 & _ & d & a & Hd & Ha & ->).
    assert (HnaD := proj1 (Forall_forall _ _) Hna _ Hdate).
    assert (HnaA := proj1 (Forall_forall _ _) Hna _ Hamount).
    assert (HnaC := proj1 (Forall_forall _ _) Hna _ Hcat).
    cbv beta in HnaD, HnaA, HnaC.
    rewrite row_get_insert_ne, row_get_insert in HnaD by done.
    rewrite row_get_insert in HnaA.
    destruct d as [| | | t |]; try done. destruct a as [| | x | |]; try done.
    split.
    - exists t, x. unfold clean_row.
      rewrite (row_get_insert_ne _ "Amount" "Date"), row_get_insert by done.
      rewrite (row_get_insert_ne _ "Month" "Category"), row_get_insert by done.
      simplify_map_eq. split_and!; try done.
      apply categorize_is_category.
    - assert (Hone : ∀ c, c = "Month" ∨ c ∈ columns raw →
                row_get (clean_row (<["Amount":=Num x]> (<["Date":=Time t]> r0))) c ≠ NA).
      { intros c Hcin. unfold clean_row.
        destruct (decide (c = "Month")) as [-> | Hm].
        { rewrite row_get_insert.
          rewrite (row_get_insert_ne _ "Amount" "Date") by done.
          rewrite row_get_insert. done. }
        destruct Hcin as [? | Hcin]; [done |].
        rewrite row_get_insert_ne by done.
        destruct (decide (c = "Category")) as [-> | Hcc].
        { rewrite row_get_insert.
          destruct (is_category_Str _ (categorize_is_category
            (row_get (<["Amount":=Num x]> (<["Date":=Time t]> r0)) "Category")))
            as (s & -> & _). done. }
        rewrite row_get_insert_ne by done.
        exact (proj1 (Forall_forall _ _) Hna _ Hcin). }
      rewrite Hc. apply Forall_forall. intros c Hcin. apply Hone.
      case_decide; [by right |].
      apply elem_of_app in Hcin as [? | ->%list_elem_of_singleton]; auto. }
  split.
  - repeat constructor; try by apply Hsub.
    rewrite Hc. case_decide; [done |]. apply elem_of_app. right. constructor.
  - rewrite Hr. apply Forall_fmap, Forall_forall. intros r Hin. by apply Hrow.
  - rewrite Hr. apply Forall_fmap, Forall_forall. intros r Hin. by apply Hrow.
Qed.

(** Cleaning a cleaned ledger returns it. *)
Lemma Cleaned_clean df : Cleaned df → clean df = Ok df.
Proof.
  intros [Hcols Hrows Hna].
  apply Forall_cons in Hcols as [Hdate Hcols].
  apply Forall_cons in Hcols as [Hamount Hcols].
  apply Forall_cons in Hcols as [Hcat Hcols].
  apply Forall_cons in Hcols as [Hmonth _].
  rewrite clean_unfold. unfold pipeline.
  rewrite (getitem_elem _ _ Hdate). simpl.
  rewrite to_datetime_fix, setitem_same; try done.
  2: { eapply Forall_impl; [exact Hrows |]. intros r (t & x & -> & _). eauto. }
  2: { apply Forall_fmap. eapply Forall_impl; [exact Hrows |].
       intros r (t & x & Ht & _). simpl. unfold row_get. by rewrite Ht. }
  rewrite (getitem_elem _ _ Hamount). simpl.
  rewrite to_numeric_fix, setitem_same; try done.
  2: { eapply Forall_impl; [exact Hrows |]. intros r (t & x & _ & -> & _). eauto. }
  2: { apply Forall_fmap. eapply Forall_impl; [exact Hrows |].
       intros r (t & x & _ & Hx & _). simpl. unfold row_get. by rewrite Hx. }
  rewrite dropna_same by done.
  rewrite (getitem_elem _ _ Hcat). simpl.
  rewrite <- list_fmap_compose.
  rewrite (Forall_fmap_ext_1 _ (λ r, row_get r "Category")).
  2: { eapply Forall_impl; [exact Hrows |].
       intros r (t & x & _ & _ & Hc & _). simpl. by apply categorize_fix. }
  rewrite setitem_same; try done.
  2: { eapply Forall_impl; [exact Hrows |]. intros r (t & x & _ & _ & _ & ? & _). done. }
  rewrite (getitem_elem _ _ Hdate). simpl.
  unfold dt_to_period. rewrite decide_True.
  2: { apply Forall_fmap. eapply Forall_impl; [exact Hrows |].
       intros r (t & x & Ht & _). simpl. unfold row_get. by rewrite Ht. }
  simpl. rewrite <- list_fmap_compose.
  rewrite (Forall_fmap_ext_1 _ (λ r, row_get r "Month")).
  2: { eapply Forall_impl; [exact Hrows |].
       intros r (t & x & Ht & _ & _ & _ & Hm). simpl. unfold row_get.
       by rewrite Ht, Hm. }
  rewrite setitem_same; try done.
  eapply Forall_impl; [exact Hrows |]. intros r (t & x & _ & _ & _ & _ & ->). eauto.
Qed.

Lemma clean_idempotent raw : clean raw ≫= clean = clean raw.
Proof.
  destruct (clean raw) as [dfc | e] eqn:E; [| done]. simpl.
  by apply Cleaned_clean, (clean_Cleaned raw).
Qed.


End cleaning.

(** ** The cleaned ledger (C1) *)

(** C1: an upload imports a negative amount, and cleaning keeps it.  The
    file of one refund of -5 is read into a new session: the notice counts
    one row, the ledger has the record, and so has the cleaned ledger,
    with an amount below 0.  The form refuses the same entry: the ledger
    stays empty and the page starts with the error of line 41. *)
Theorem upload_negative_amount_kept :
  let w := after (upload refund_csv) initial_world in
  let raw := ledger w in
  let dfc := cleaned_of raw in
  let w' := after (add {| year := 2024; month := 3; day := 1 |} "Food" (Q2Qc (-5))
                     "refund") initial_world in
  page w = [SidebarSuccess "Uploaded 1 rows!"]
  ∧ records raw = [[day_2024 3 1; Str "Food"; Num (Q2Qc (-5)); Str "refund"]]
  ∧ clean raw = Ok dfc
  ∧ records dfc = [[day_2024 3 1; Str "Food"; Num (Q2Qc (-5)); Str "refund";
                    month_2024 3]]
  ∧ (Q2Qc (-5) < 0)%Qc
  ∧ records (ledger w') = []
  ∧ head (page w') = Some (SidebarError "Amount must be > 0").
Proof. vm_decide. Qed.

(** ** The budget alert (C3) *)

Lemma omap_fmap {A B C} (f : B → option C) (g : A → B) (l : list A) :
  omap f (g <$> l) = omap (λ x, f (g x)) l.
Proof.
  induction l as [| x l IH]; [done |].
  rewrite fmap_cons. cbn [omap list_omap]. by rewrite IH.
Qed.

Lemma period_le_trans p q r : period_le p q → period_le q r → period_le p r.
Proof. unfold period_le. lia. Qed.

Lemma Cleaned_month df r :
  Cleaned df → r ∈ rows df → ∃ p, row_get r "Month" = Per p.
Proof.
  intros [_ Hrows _] Hr.
  destruct (proj1 (Forall_forall _ _) Hrows _ Hr) as (t & x & _ & _ & _ & _ & Hm).
  unfold row_get. rewrite Hm. eauto.
Qed.

Lemma Cleaned_amount df r :
  Cleaned df → r ∈ rows df → ∃ x, row_get r "Amount" = Num x.
Proof.
  intros [_ Hrows _] Hr.
  destruct (proj1 (Forall_forall _ _) Hrows _ Hr) as (t & x & _ & Hx & _).
  unfold row_get. rewrite Hx. eauto.
Qed.

Lemma series_sum_amounts df (l : list (gmap string cell)) :
  Cleaned df → l ⊆ rows df →
  series_sum ((λ r, row_get r "Amount") <$> l)
  = Ok (Qc_sum (omap (λ r, num_value (row_get r "Amount")) l)).
Proof.
  intros Hdf Hl. unfold series_sum. rewrite decide_True.
  - by rewrite omap_fmap.
  - apply Forall_fmap, Forall_forall. intros r Hr.
    destruct (Cleaned_amount df r Hdf (Hl _ Hr)) as [x Hx]. simpl. by rewrite Hx.
Qed.

(** C3: the alert is decided by the rounded sum.  With 0.10 and 0.20
    entered in January and a budget of 0.30, the amounts of the latest
    month add up to the budget and do not exceed it; the program adds
    0.1 and 0.2 to 0.30000000000000004, which is above the float 0.3, and
    shows the alert, with an overage of 2^-54.  This overage is not the
    difference of the numbers the frame holds either (their sum is less
    than 2^-54 above the float 0.3). *)
Theorem alert_fires_at_budget `{Numpy} :
  let dfc := cleaned_of (ledger tenths) in
  let budget := Q2Qc (3 # 10) in
  let overage := S754_finite false 4503599627370496 (-106) in
  clean (ledger tenths) = Ok dfc
  ∧ records dfc
    = [[day_2024 1 5; Str "Food"; Num (Q2Qc (1 # 10)); Str "gum"; month_2024 1];
       [day_2024 1 6; Str "Transport"; Num (Q2Qc (2 # 10)); Str "bus"; month_2024 1]]
  ∧ month_spend dfc (month_2024 1) = budget
  ∧ F64.budget_alert (F64.of_Qc budget) dfc
    = Ok (Some {| F64.alert_total := S754_finite false 5404319552844596 (-54);
                  F64.alert_budget := S754_finite false 5404319552844595 (-54);
                  F64.alert_overage := overage |})
  ∧ (F64.to_Q (F64.of_Qc (Q2Qc (1 # 10))) + F64.to_Q (F64.of_Qc (Q2Qc (2 # 10)))
     - F64.to_Q (F64.of_Qc budget) < F64.to_Q overage)%Q.
Proof.
  intros dfc budget overage. subst dfc budget overage.
  split; [vm_decide |]. split; [vm_decide |]. split; [vm_decide |].
  split; vm_compute; reflexivity.
Qed.

(** ** Totals and summaries (C4, C9) *)

Lemma Qc_sum_cons x xs : Qc_sum (x :: xs) = (x + Qc_sum xs)%Qc.
Proof. done. Qed.

Lemma Qc_sum_Permutation xs ys : xs ≡ₚ ys → Qc_sum xs = Qc_sum ys.
Proof.
  induction 1 as [| x xs ys _ IH | x y xs | xs ys zs _ IH1 _ IH2];
    rewrite ?Qc_sum_cons; [done | by rewrite IH | ring | congruence].
Qed.


Lemma zip_fmap_same {A B C} (f : A → B) (g : A → C) (l : list A) :
  zip (f <$> l) (g <$> l) = (λ x, (f x, g x)) <$> l.
Proof. induction l as [| x l IH]; [done |]. rewrite !fmap_cons. simpl. by rewrite IH. Qed.

Lemma filter_fmap {A B} (f : A → B) (P : B → Prop) `{!∀ y, Decision (P y)} (l : list A) :
  filter P (f <$> l) = f <$> filter (λ x, P (f x)) l.
Proof.
  induction l as [| x l IH]; [done |]. rewrite fmap_cons.
  destruct (decide (P (f x))).
  - rewrite !filter_cons_True by done. by rewrite fmap_cons, IH.
  - by rewrite !filter_cons_False by done.
Qed.

Lemma group_entries_rows (l : list (gmap string cell)) key :
  Forall (λ r, row_get r key ≠ NA) l →
  group_entries ((λ r, row_get r key) <$> l) ((λ r, row_get r "Amount") <$> l)
  = (λ r, (row_get r key, amount_of r)) <$> l.
Proof.
  intros Hkey. unfold group_entries. rewrite zip_fmap_same, omap_fmap.
  induction Hkey as [| r l Hr _ IH]; [done |].
  rewrite fmap_cons. cbn [omap list_omap]. rewrite IH. simpl.
  by destruct (row_get r key).
Qed.

Lemma Cleaned_amounts_sum df (l : list (gmap string cell)) :
  Cleaned df → l ⊆ rows df →
  Qc_sum (omap (λ r, num_value (row_get r "Amount")) l) = Qc_sum (amount_of <$> l).
Proof.
  intros Hdf. induction l as [| r l IH]; intros Hl; [done |].
  destruct (Cleaned_amount df r Hdf) as [x Hx]; [apply Hl; left |].
  cbn [omap list_omap]. rewrite fmap_cons. unfold amount_of at 1. rewrite Hx.
  cbn [num_value default from_option]. rewrite !Qc_sum_cons, IH; [done |].
  intros r' ?. apply Hl. by right.
Qed.

(** [groupby_sum] on a cleaned ledger, by a column with no missing value. *)
Lemma groupby_sum_Cleaned df key :
  Cleaned df → key ∈ columns df → Forall (λ r, row_get r key ≠ NA) (rows df) →
  let entries := (λ r, (row_get r key, amount_of r)) <$> rows df in
  groupby_sum df key "Amount"
  = Ok ((λ k, (k, group_total entries k)) <$> merge_sort cell_le (remove_dups entries.*1)).
Proof.
  intros Hdf Hkey Hna entries. unfold groupby_sum.
  destruct (Hdf) as [Hcols _ _].
  apply Forall_cons in Hcols as [_ [Hamount _]%Forall_cons].
  rewrite !getitem_elem, !bind_Ok by done.
  rewrite decide_True.
  - by rewrite group_entries_rows.
  - apply Forall_fmap, Forall_forall. intros r Hr.
    destruct (Cleaned_amount _ _ Hdf Hr) as [x Hx]. simpl. by rewrite Hx.
Qed.

Lemma group_total_month df k :
  Cleaned df →
  group_total ((λ r, (row_get r "Month", amount_of r)) <$> rows df) k = month_spend df k.
Proof.
  intros Hdf. unfold group_total, month_spend.
  rewrite filter_fmap, <- list_fmap_compose. simpl.
  rewrite (Cleaned_amounts_sum df); [done | done |].
  intros r [_ ?]%list_elem_of_filter. done.
Qed.

Lemma Cleaned_notna_col df key :
  Cleaned df → key ∈ columns df → Forall (λ r, row_get r key ≠ NA) (rows df).
Proof.
  intros [_ _ Hna] Hkey. eapply Forall_impl; [exact Hna |].
  intros r Hr. exact (proj1 (Forall_forall _ _) Hr _ Hkey).
Qed.

(** C4: the total is not the sum of the summary by category.  With 0.20
    on food, 0.10 on transport and 0.30 on food, the total spent is
    (0.2 + 0.1) + 0.3 = 0.6000000000000001 in float64, and the summary has
    0.2 + 0.3 = 0.5 for Food and 0.1 for Transport: these add up to the
    float 0.6, in either order, which is below the total; and so does
    their exact sum. *)
Theorem total_differs_from_categories `{Numpy} :
  let dfc := cleaned_of (ledger fifths) in
  let total := S754_finite false 5404319552844596 (-53) in
  let food := S754_finite false 4503599627370496 (-53) in
  let transport := S754_finite false 7205759403792794 (-56) in
  clean (ledger fifths) = Ok dfc
  ∧ F64.total_spent dfc = Ok total
  ∧ F64.cat_sum dfc = Ok [(Str "Food", food); (Str "Transport", transport)]
  ∧ F64.add food transport = F64.of_Qc (Q2Qc (6 # 10))
  ∧ F64.add transport food = F64.of_Qc (Q2Qc (6 # 10))
  ∧ F64.ltb (F64.of_Qc (Q2Qc (6 # 10))) total = true
  ∧ (F64.to_Q food + F64.to_Q transport < F64.to_Q total)%Q.
Proof.
  intros dfc total food transport. subst dfc total food transport.
  split; [vm_decide |]. repeat split; vm_compute; reflexivity.
Qed.

Lemma avg_monthly_mean `{Pandas} raw dfc :
  clean raw = Ok dfc → rows dfc ≠ [] →
  avg_monthly dfc
  = Ok (Some (Qc_sum (month_spend dfc <$> months_present dfc)
              / Qc_of_nat (length (months_present dfc)))%Qc).
Proof.
  intros Hclean Hne. assert (Hdf := clean_Cleaned _ _ Hclean).
  destruct (Hdf) as [Hcols _ _].
  apply Forall_cons in Hcols as [_ [_ [_ [Hmonth _]%Forall_cons]%Forall_cons]%Forall_cons].
  assert (HnaM := Cleaned_notna_col _ _ Hdf Hmonth).
  unfold avg_monthly. rewrite groupby_sum_Cleaned, bind_Ok by done.
  rewrite <- !list_fmap_compose.
  set (ks := merge_sort cell_le _).
  assert (Hks : ks ≡ₚ months_present dfc) by apply merge_sort_Permutation.
  rewrite (list_fmap_ext _ (month_spend dfc) ks) by (intros; by apply group_total_month).
  unfold series_mean.
  destruct (month_spend dfc <$> ks) as [| x xs] eqn:E.
  { apply fmap_nil_inv in E. rewrite E in Hks.
    destruct (rows dfc) as [| r l] eqn:Er; [done |].
    assert (Hin : row_get r "Month" ∈ months_present dfc).
    { apply elem_of_remove_dups. rewrite Er, fmap_cons. left. }
    rewrite <- Hks in Hin. by apply elem_of_nil in Hin. }
  rewrite <- E. do 2 f_equal. unfold Qc_of_nat. f_equal.
  - apply Qc_sum_Permutation. by rewrite Hks.
  - by rewrite !length_fmap, Hks.
Qed.



(** The summaries of the example ledger: 100 in all, 80 for Food and 20
    for Transport, 80 in January and 20 in February. *)
Lemma summaries_example :
  let dfc := cleaned_of (ledger february) in
  total_spent dfc = Ok (Q2Qc 100)
  ∧ cat_sum dfc = Ok [(Str "Food", Q2Qc 80); (Str "Transport", Q2Qc 20)]
  ∧ monthly_sum dfc = Ok [(month_2024 1, Q2Qc 80); (month_2024 2, Q2Qc 20)]
  ∧ avg_monthly dfc = Ok (Some (Q2Qc 50))
  ∧ num_entries dfc = 3%nat.
Proof. vm_decide. Qed.

(** The example of the specification: with the February record in the
    ledger a budget of 70 raises no alert (February has 20); with January
    alone a budget of 75 does, 80 spent and 5 over. *)
Lemma budget_alert_example :
  clean (ledger february) = Ok (cleaned_of (ledger february))
  ∧ budget_alert (Q2Qc 70) (cleaned_of (ledger february)) = Ok None
  ∧ clean (ledger january) = Ok (cleaned_of (ledger january))
  ∧ budget_alert (Q2Qc 75) (cleaned_of (ledger january))
    = Ok (Some {| alert_total := Q2Qc 80; alert_budget := Q2Qc 75;
                  alert_overage := Q2Qc 5 |}).
Proof. vm_decide. Qed.

(** ** The report (C8) *)

(** C8 as stated fails: the sheet "Expenses" of the example ledger has a
    fifth column, the derived month. *)
Lemma expenses_sheet_month_counterexample :
  let dfc := cleaned_of (ledger february) in
  let sheet := first_sheet (export_report dfc) in
  clean (ledger february) = Ok dfc ∧ rows dfc ≠ []
  ∧ sheet_name <$> sheet = Some "Expenses"
  ∧ header <$> sheet = Some ["Date"; "Category"; "Amount"; "Description"; "Month"]
  ∧ body <$> sheet
    = Some [[day_2024 1 5; Str "Food"; Num (Q2Qc 50); Str "lunch"; month_2024 1];
            [day_2024 1 20; Str "Food"; Num (Q2Qc 30); Str "N/A"; month_2024 1];
            [day_2024 2 1; Str "Transport"; Num (Q2Qc 20); Str "N/A"; month_2024 2]]
  ∧ header <$> sheet ≠ Some ["Date"; "Category"; "Amount"; "Description"].
Proof. vm_decide. Qed.

(** C8, amended: the first sheet of the report is named "Expenses"; its
    header is the columns of the cleaned ledger, which are those of the raw
    ledger (Date, Category, Amount, Description and any other column an
    import brought) followed by the derived Month; its body has one row per
    cleaned record, in ledger order, with the cells of that record. *)
Theorem expenses_sheet_spec `{Pandas} raw dfc :
  clean raw = Ok dfc → rows dfc ≠ [] →
  ∃ s rest,
    export_report dfc = Ok (s :: rest)
    ∧ sheet_name s = "Expenses"
    ∧ header s = columns dfc
    ∧ columns dfc = (if decide ("Month" ∈ columns raw) then columns raw
                     else columns raw ++ ["Month"])
    ∧ "Month" ∈ header s
    ∧ length (body s) = length (rows dfc)
    ∧ ∀ i r, rows dfc !! i = Some r → body s !! i = Some (row_get r <$> header s).
Proof.
  intros Hclean _. assert (Hdf := clean_Cleaned _ _ Hclean).
  destruct (Hdf) as [Hcols _ _].
  apply Forall_cons in Hcols
    as [_ [_ [Hcat [Hmonth _]%Forall_cons]%Forall_cons]%Forall_cons].
  unfold export_report.
  rewrite !groupby_sum_Cleaned, !bind_Ok by eauto using Cleaned_notna_col.
  eexists _, _. split; [done |]. split; [done |]. split; [done |].
  split; [by apply clean_inv in Hclean as [_ ->] |].
  split; [done |]. split; [by simpl; rewrite length_fmap |].
  intros i r Hi. simpl. by rewrite list_lookup_fmap, Hi.
Qed.

Lemma expenses_sheet_spec_witness :
  let raw := ledger february in
  let dfc := cleaned_of raw in
  clean raw = Ok dfc ∧ rows dfc ≠ []
  ∧ ∃ s rest,
      export_report dfc = Ok (s :: rest)
      ∧ sheet_name s = "Expenses"
      ∧ header s = columns dfc
      ∧ columns dfc = (if decide ("Month" ∈ columns raw) then columns raw
                       else columns raw ++ ["Month"])
      ∧ "Month" ∈ header s
      ∧ length (body s) = length (rows dfc)
      ∧ ∀ i r, rows dfc !! i = Some r → body s !! i = Some (row_get r <$> header s).
Proof.
  intros raw dfc.
  assert (E : clean raw = Ok dfc) by vm_decide.
  assert (Hne : rows dfc ≠ []) by vm_decide.
  split; [exact E |]. split; [exact Hne |].
  exact (expenses_sheet_spec raw dfc E Hne).
Defined.

(** ** Imports (C5, C6, C7) *)

(** The frame pandas reads from the file of C7. *)
Lemma march_csv_frame :
  columns <$> read_csv march_csv = Ok ["Date"; "Category"; "Amount"]
  ∧ records <$> read_csv march_csv
    = Ok [[Str "2024-03-01"; Str "Food"; Num (Q2Qc 15.5)];
          [Str "bad-date"; Str "Food"; Num (Q2Qc 10)]].
Proof. vm_decide. Qed.

(** C7 fails on the code: for a file with the columns Date, Category and
    Amount only, [df_upload.get('Description', 'N/A')] is the string
    'N/A', which has no [fillna]; the run ends in an AttributeError before
    the ledger is assigned and before any count is shown. *)
Theorem upload_without_description_raises :
  let run := script (upload march_csv) initial_world in
  run.1 = Err (AttributeError "'str' object has no attribute 'fillna'")
  ∧ session_df run.2 = session_df initial_world
  ∧ ledger run.2 = ledger initial_world
  ∧ records (ledger run.2) = []
  ∧ page run.2 = [].
Proof. vm_decide. Qed.

(** With a Description column the same two rows are imported as the
    claim says: one record, a count of 1. *)
Lemma upload_with_description_example :
  let file := "Date,Category,Amount,Description
2024-03-01,Food,15.5,lunch
bad-date,Food,10,dinner
" in
  let run := script (upload file) initial_world in
  run.1 = Err RerunException
  ∧ records (ledger run.2)
    = [[day_2024 3 1; Str "Food"; Num (Q2Qc 15.5); Str "lunch"]]
  ∧ page run.2 = [SidebarSuccess "Uploaded 1 rows!"].
Proof. vm_decide. Qed.

(** C5 fails on the code for imported records: a row of a file whose
    description is blank reads as a missing value, and [dropna] removes
    the row before [fillna] could write 'N/A' into it.  Nothing is
    imported. *)
Theorem upload_blank_description_dropped :
  let run := script (upload blank_description_csv) initial_world in
  records <$> read_csv blank_description_csv
  = Ok [[Str "2024-03-01"; Str "Food"; Num (Q2Qc 15.5); NA]]
  ∧ run.1 = Err RerunException
  ∧ records (ledger run.2) = []
  ∧ page run.2 = [SidebarSuccess "Uploaded 0 rows!"].
Proof. vm_decide. Qed.

(** A record typed into the form with an empty description is kept, with
    'N/A' as its description. *)
Lemma add_empty_description :
  records (ledger january)
  = [[day_2024 1 5; Str "Food"; Num (Q2Qc 50); Str "lunch"];
     [day_2024 1 20; Str "Food"; Num (Q2Qc 30); Str "N/A"]].
Proof. vm_decide. Qed.

(** A file that lacks a required column: the handler returns without
    having touched the session or the page. *)
Lemma upload_missing_column `{Pandas} i file df w :
  uploaded_file i = Some file → read_csv file = Ok df →
  ¬ Forall (λ col, col ∈ columns df) ["Date"; "Category"; "Amount"] →
  ∃ h, upload_handler i w = (Ok (), with_heap h w).
Proof.
  intros Hfile Hread Hcols. unfold upload_handler. rewrite Hfile, Hread.
  unfold mbind, Run_bind, lift, Obj.new, Obj.columns, Obj.load, mret, Run_ret.
  simpl. rewrite lookup_total_insert_eq. rewrite decide_False by done.
  by eexists.
Qed.

(** C6 fails on the code: for a file without the column Amount nothing is
    imported, and nothing tells the user: the run goes on to the dashboard
    and the page shows what it shows for an empty ledger, no error. *)
Theorem upload_missing_column_silent :
  let run := script (upload no_amount_csv) initial_world in
  run.1 = Ok ()
  ∧ ledger run.2 = ledger initial_world
  ∧ page run.2 = [Info "Add expenses via sidebar or upload CSV to get started!"].
Proof. vm_decide. Qed.

(** The form does signal an amount it refuses. *)
Lemma add_zero_amount_error :
  let run := script (add {| year := 2024; month := 1; day := 5 |} "Food" 0%Qc "")
               initial_world in
  ledger run.2 = ledger initial_world
  ∧ head (page run.2) = Some (SidebarError "Amount must be > 0").
Proof. vm_decide. Qed.

(** ** What a run leaves as it was (C10) *)

Global Instance same_budget_preorder : PreOrder same_budget.
Proof. split; unfold same_budget; [done | congruence]. Qed.

Global Instance same_frames_preorder : PreOrder same_frames.
Proof.
  split.
  - done.
  - intros w1 w2 w3 [E12 H12] [E23 H23]. split; [congruence |].
    intros k Hk. rewrite H23, H12; [done.. |].
    apply elem_of_dom. rewrite H12 by done. by apply elem_of_dom.
Qed.

Create HintDb preserves.

Lemma preserves_ret R `{!PreOrder R} {A} (a : A) : preserves R (mret a).
Proof. by intros w. Qed.

Lemma preserves_bind R `{!PreOrder R} {A B} (m : Run A) (f : A → Run B) :
  preserves R m → (∀ a, preserves R (f a)) → preserves R (m ≫= f).
Proof.
  intros Hm Hf w. unfold mbind, Run_bind. specialize (Hm w).
  destruct (m w) as [[a | e] w1]; simpl in *; [| done].
  etransitivity; [exact Hm | apply Hf].
Qed.

Lemma preserves_lift R `{!PreOrder R} {A} (r : Result A) : preserves R (lift r).
Proof. by intros w. Qed.

Lemma preserves_rerun R `{!PreOrder R} : preserves R rerun.
Proof. by intros w. Qed.

Lemma preserves_show_budget e : preserves same_budget (show e).
Proof. by intros w. Qed.
Lemma preserves_show_frames e : preserves same_frames (show e).
Proof. by intros w. Qed.

Lemma preserves_get_session_df R `{!PreOrder R} : preserves R get_session_df.
Proof. by intros w. Qed.
Lemma preserves_get_session_budget R `{!PreOrder R} : preserves R get_session_budget.
Proof. by intros w. Qed.

Lemma preserves_set_session_df df : preserves same_budget (set_session_df df).
Proof. by intros w. Qed.
Lemma preserves_set_session_budget b : preserves same_frames (set_session_budget b).
Proof. by intros w. Qed.

Lemma preserves_load R `{!PreOrder R} df : preserves R (Obj.load df).
Proof. by intros w. Qed.

Lemma preserves_store_budget df v : preserves same_budget (Obj.store df v).
Proof. by intros w. Qed.
Lemma preserves_new_budget v : preserves same_budget (Obj.new v).
Proof. by intros w. Qed.
Lemma preserves_new_frames v : preserves same_frames (Obj.new v).
Proof. intros w. split; [done |]. intros k Hk. by apply insert_fresh_frame. Qed.

Global Hint Resolve preserves_ret preserves_lift preserves_rerun
  preserves_show_budget preserves_show_frames preserves_get_session_df
  preserves_get_session_budget preserves_set_session_df
  preserves_set_session_budget preserves_load preserves_store_budget
  preserves_new_budget preserves_new_frames : preserves.

Ltac preserves_step :=
  lazymatch goal with
  | |- ∀ _, _ => intros ?
  | |- preserves _ (_ ≫= _) => apply preserves_bind; [apply _ | |]
  | |- preserves _ (if ?b then _ else _) => destruct b
  | |- preserves _ (match ?o with Some _ => _ | None => _ end) => destruct o
  | |- preserves _ (from_option _ _ ?o) => destruct o; simpl
  | |- preserves _ _ => solve [eauto with preserves typeclass_instances]
  end.
Ltac preserves_auto := repeat preserves_step.

Section frame.
Context `{Pandas}.

Lemma clean_data_world df w :
  session_df (clean_data df w).2 = session_df w
  ∧ session_budget (clean_data df w).2 = session_budget w
  ∧ page (clean_data df w).2 = page w
  ∧ ∀ k, k ∈ dom (heap w) → heap (clean_data df w).2 !! k = heap w !! k.
Proof.
  destruct (clean_data_run df w) as (r & h' & -> & Hh & _). done.
Qed.

Lemma preserves_clean_data_budget df : preserves same_budget (clean_data df).
Proof. intros w. apply clean_data_world. Qed.
Lemma preserves_clean_data_frames df : preserves same_frames (clean_data df).
Proof. intros w. split; apply clean_data_world. Qed.
#[local] Hint Resolve preserves_clean_data_budget preserves_clean_data_frames : preserves.

Lemma preserves_dashboard_budget : preserves same_budget dashboard.
Proof. unfold dashboard. preserves_auto. Qed.
Lemma preserves_dashboard_frames : preserves same_frames dashboard.
Proof. unfold dashboard. preserves_auto. Qed.

Lemma preserves_script_budget i : set_budget i = false → preserves same_budget (script i).
Proof.
  intros Hb. unfold script, add_expense_handler, budget_handler, upload_handler.
  rewrite Hb.
  unfold Obj.concat, Obj.columns, Obj.getitem, Obj.setitem, Obj.dropna, Obj.get, Obj.len.
  preserves_auto; apply preserves_dashboard_budget.
Qed.

Lemma preserves_script_frames i :
  add_expense i = false → uploaded_file i = None → preserves same_frames (script i).
Proof.
  intros Ha Hu. unfold script, add_expense_handler, budget_handler, upload_handler.
  rewrite Ha, Hu.
  preserves_auto; apply preserves_dashboard_frames.
Qed.

Lemma same_frames_ledger w w' :
  same_frames w w' → session_df w ∈ dom (heap w) → ledger w' = ledger w.
Proof.
  intros [Hdf Hheap] Hin. unfold ledger. rewrite Hdf.
  by rewrite !lookup_total_alt, Hheap.
Qed.

End frame.

(** [setitem] does change the object it is called on. *)
Lemma setitem_in_place :
  let w := (Obj.setitem (session_df january) "Date" [] january).2 in
  session_df w = session_df january ∧ ledger w ≠ ledger january.
Proof. vm_decide. Qed.

(** C10: [clean_data] leaves every frame that exists as it is (its
    argument among them), the session and the page too; the dashboard
    leaves the session ledger and the budget as they are; and so does a
    whole run of the script, the ledger unless "Add Expense" is pressed or a
    file is uploaded, the budget unless "Set Budget" is pressed. *)
Theorem viewing_leaves_session `{Pandas} :
  (∀ df w, let w' := (clean_data df w).2 in
     same_frames w w' ∧ same_budget w w' ∧ page w' = page w
     ∧ (df ∈ dom (heap w) → heap w' !!! df = heap w !!! df))
  ∧ (∀ w, let w' := (dashboard w).2 in
       same_frames w w' ∧ same_budget w w'
       ∧ (session_df w ∈ dom (heap w) → ledger w' = ledger w))
  ∧ (∀ i w, let w' := (script i w).2 in
       (add_expense i = false → uploaded_file i = None →
        same_frames w w' ∧ (session_df w ∈ dom (heap w) → ledger w' = ledger w))
       ∧ (set_budget i = false → same_budget w w')).
Proof.
  split; [| split].
  - intros df w w'. destruct (clean_data_world df w) as (Hdf & Hb & Hp & Hh).
    split; [by split |]. split; [done |]. split; [done |].
    intros Hin. by rewrite !lookup_total_alt, Hh.
  - intros w w'. assert (Hf := preserves_dashboard_frames w).
    split; [done |]. split; [apply preserves_dashboard_budget |].
    by apply same_frames_ledger.
  - intros i w w'. split.
    + intros Ha Hu. assert (Hf := preserves_script_frames i Ha Hu w).
      split; [done |]. by apply same_frames_ledger.
    + intros Hb. by apply preserves_script_budget.
Qed.

Lemma viewing_leaves_session_witness :
  let w' := (script idle february).2 in
  session_df february ∈ dom (heap february)
  ∧ ledger w' = ledger february ∧ session_budget w' = session_budget february.
Proof.
  assert (Hin : session_df february ∈ dom (heap february)) by vm_decide.
  destruct (proj2 (proj2 viewing_leaves_session) idle february) as [Hl Hb].
  split; [exact Hin |].
  split; [exact (proj2 (Hl eq_refl eq_refl) Hin) | exact (Hb eq_refl)].
Defined.

(** * Further properties *)

(** ** Running a piece of the script *)

Lemma bind_raises {A B} (m : Run A) (f : A → Run B) w e :
  (m w).1 = Err e → (m ≫= f) w = (Err e, (m w).2).
Proof.
  unfold mbind, Run_bind. destruct (m w) as [[a | e'] w']; simpl; [done |].
  by intros [= ->].
Qed.

Lemma bind_returns {A B} (m : Run A) (f : A → Run B) w a :
  (m w).1 = Ok a → (m ≫= f) w = f a (m w).2.
Proof.
  unfold mbind, Run_bind. destruct (m w) as [[a' | e] w']; simpl; [| done].
  by intros [= ->].
Qed.

(** One step of a run, on a world whose heap is known. *)
Lemma run_bind {A B} (m : Run A) (f : A → Run B) w a w' :
  m w = (Ok a, w') → (m ≫= f) w = f a w'.
Proof. unfold mbind, Run_bind. by intros ->. Qed.

Lemma run_bind_Err {A B} (m : Run A) (f : A → Run B) w e w' :
  m w = (Err e, w') → (m ≫= f) w = (Err e, w').
Proof. unfold mbind, Run_bind. by intros ->. Qed.

Lemma with_heap_id w : with_heap (heap w) w = w.
Proof. by destruct w. Qed.

Lemma columns_heap df h w :
  Obj.columns df (with_heap h w) = (Ok (columns (h !!! df)), with_heap h w).
Proof. done. Qed.

Lemma getitem_heap df c h w :
  c ∈ columns (h !!! df) →
  Obj.getitem df c (with_heap h w)
  = (Ok ((λ r, row_get r c) <$> rows (h !!! df)), with_heap h w).
Proof.
  intros Hc. unfold Obj.getitem, Obj.load, lift, mbind, Run_bind. cbn [heap with_heap].
  by rewrite getitem_elem.
Qed.

Lemma setitem_heap df c s h w :
  Obj.setitem df c s (with_heap h w)
  = (Ok (), with_heap (<[df := Frame.setitem (h !!! df) c s]> h) w).
Proof. done. Qed.

Lemma get_heap df c d h w :
  Obj.get df c d (with_heap h w) = (Ok (Frame.get (h !!! df) c d), with_heap h w).
Proof. done. Qed.

Lemma dropna_heap df h w :
  Obj.dropna df (with_heap h w)
  = (Ok (fresh (dom h)), with_heap (<[fresh (dom h) := Frame.dropna (h !!! df)]> h) w).
Proof. done. Qed.

Lemma concat_heap a b h w :
  Obj.concat a b (with_heap h w)
  = (Ok (fresh (dom h)),
     with_heap (<[fresh (dom h) := Frame.concat (h !!! a) (h !!! b)]> h) w).
Proof. done. Qed.

Lemma lift_Ok {A} (a : A) w : lift (Ok a) w = (Ok a, w).
Proof. done. Qed.

Lemma get_session_df_heap h w :
  get_session_df (with_heap h w) = (Ok (session_df w), with_heap h w).
Proof. done. Qed.

Lemma set_session_df_heap df h w :
  set_session_df df (with_heap h w)
  = (Ok (), {| heap := h; session_df := df; session_budget := session_budget w;
               page := page w |}).
Proof. done. Qed.

Lemma len_run df w : Obj.len df w = (Ok (length (rows (heap w !!! df))), w).
Proof. done. Qed.

Ltac run_step H :=
  erewrite run_bind; [| apply H]; cbv beta.

Lemma lookup_total_insert_fresh (h : gmap nat DataFrame) v k :
  k ∈ dom h → <[fresh (dom h) := v]> h !!! k = h !!! k.
Proof. intros Hk. by rewrite !lookup_total_alt, insert_fresh_frame. Qed.

Lemma wf_frames w w' :
  wf w → session_df w' = session_df w →
  (∀ k, k ∈ dom (heap w) → heap w' !! k = heap w !! k) →
  wf w' ∧ ledger w' = ledger w.
Proof.
  unfold wf, ledger. intros Hwf -> Hh. split.
  - apply elem_of_dom. rewrite Hh by done. by apply elem_of_dom.
  - by rewrite !lookup_total_alt, Hh.
Qed.

(** ** Concatenation *)

Lemma row_get_reindex cols r c :
  row_get (reindex cols r) c = if decide (c ∈ cols) then row_get r c else NA.
Proof.
  unfold reindex, row_get at 1. induction cols as [| c0 cols IH]; [done |].
  rewrite fmap_cons. cbn [list_to_map foldr]. simpl.
  destruct (decide (c0 = c)) as [-> | Hne].
  - rewrite lookup_insert_eq. rewrite decide_True by left. done.
  - rewrite lookup_insert_ne by done. rewrite IH.
    destruct (decide (c ∈ cols)).
    + rewrite decide_True by by right. done.
    + rewrite decide_False; [done |]. intros [? | ?]%elem_of_cons; congruence.
Qed.


Lemma columns_concat a b :
  columns (Frame.concat a b) = columns a ++ filter (λ c, c ∉ columns a) (columns b).
Proof. done. Qed.

Lemma columns_concat_l a b c : c ∈ columns a → c ∈ columns (Frame.concat a b).
Proof. intros Hc. rewrite columns_concat. apply elem_of_app. by left. Qed.

Lemma columns_concat_subseteq a b :
  columns b ⊆ columns a → columns (Frame.concat a b) = columns a.
Proof.
  intros Hsub. rewrite columns_concat.
  replace (filter (λ c, c ∉ columns a) (columns b)) with (@nil string);
    [by rewrite app_nil_r |].
  symmetry. induction (columns b) as [| c l IH]; [done |].
  rewrite filter_cons_False; [apply IH |].
  - intros x Hx. apply Hsub. by right.
  - intros Hc. apply Hc, Hsub. left.
Qed.

Lemma length_concat a b :
  length (rows (Frame.concat a b)) = (length (rows a) + length (rows b))%nat.
Proof. unfold Frame.concat. cbn [rows]. by rewrite length_fmap, length_app. Qed.

Lemma records_concat a b :
  columns b ⊆ columns a →
  records (Frame.concat a b)
  = records a ++ ((λ r, row_get r <$> columns a) <$> rows b).
Proof.
  intros Hsub. assert (Hc := columns_concat_subseteq a b Hsub).
  unfold records. rewrite Hc. unfold Frame.concat in *. cbn [rows columns] in *.
  rewrite Hc, <- list_fmap_compose, fmap_app.
  f_equal; apply list_fmap_ext; intros _ r _; simpl;
    apply list_fmap_ext; intros i c Hi; rewrite row_get_reindex;
    rewrite decide_True; try done; by eapply list_elem_of_lookup_2.
Qed.

(** ** The handlers of the sidebar *)

Lemma add_expense_run i w :
  add_expense i = true → (0 < amount i)%Qc → wf w →
  let rw := add_expense_handler i w in
  rw.1 = Err RerunException
  ∧ ledger rw.2 = Frame.concat (ledger w) (new_row i)
  ∧ wf rw.2
  ∧ session_budget rw.2 = session_budget w
  ∧ page rw.2 = page w ++ [SidebarSuccess "Added!"]
  ∧ (∀ k, k ∈ dom (heap w) → heap rw.2 !! k = heap w !! k).
Proof.
  intros Ha Hamt Hwf. unfold add_expense_handler. rewrite Ha, decide_True by done.
  unfold Obj.new, Obj.concat, Obj.load, get_session_df, set_session_df, show, rerun,
    lift, mbind, Run_bind, mret, Run_ret, wf, ledger in *.
  cbn -[new_row Frame.concat fresh].
  rewrite lookup_total_insert_eq, lookup_total_insert_fresh by done.
  split; [done |]. split; [by rewrite lookup_total_insert_eq |].
  split; [rewrite dom_insert_L; set_solver |]. split; [done |]. split; [done |].
  intros k Hk. by apply insert2_fresh_frame.
Qed.

Lemma add_expense_skip i w :
  add_expense i = false → add_expense_handler i w = (Ok (), w).
Proof. intros Ha. unfold add_expense_handler. by rewrite Ha. Qed.

Section uploads.
Context `{Pandas}.

(** Line 59 changes no record that line 57 has kept. *)
Lemma imported_rows_fill df :
  "Description" ∈ columns df →
  (λ r, <["Description" :=
            (λ c, match c with NA => Str "N/A" | _ => c end)
              (row_get (<["Category" := categorize (row_get r "Category")]> r)
                 "Description")]>
          (<["Category" := categorize (row_get r "Category")]> r))
    <$> filter (notna_row (columns df)) (parsed_rows df)
  = rows (imported_of df).
Proof.
  intros Hdesc. unfold imported_of. cbn [rows].
  apply Forall_fmap_ext_1, Forall_forall. intros r [Hna _]%list_elem_of_filter.
  assert (Hd := proj1 (Forall_forall _ _) Hna _ Hdesc). simpl in Hd.
  rewrite row_get_insert_ne by done. unfold row_get in *.
  destruct (r !! "Description") as [v |] eqn:E; [| done]. simpl in *.
  apply insert_id. rewrite lookup_insert_ne by done.
  rewrite E. by destruct v.
Qed.

(** The upload of a file with the three required columns, run to its end:
    the file's frame is a first new object, parsed in place; the frame
    without missing values is a second, normalized in place; with a
    Description column the concatenation is a third, which becomes the
    session ledger. *)
Lemma upload_handler_run i file df w :
  uploaded_file i = Some file → read_csv file = Ok df →
  Forall (λ c, c ∈ columns df) ["Date"; "Category"; "Amount"] →
  let u := fresh (dom (heap w)) in
  let h2 := <[u := {| columns := columns df; rows := parsed_rows df |}]> (heap w) in
  let u' := fresh (dom h2) in
  let h3 := <[u' := imported_of df]> h2 in
  upload_handler i w
  = if decide ("Description" ∈ columns df)
    then (Err RerunException,
          {| heap := <[fresh (dom h3) :=
                         Frame.concat (h3 !!! session_df w) (imported_of df)]> h3;
             session_df := fresh (dom h3);
             session_budget := session_budget w;
             page := page w ++
               [SidebarSuccess ("Uploaded " +:+ pretty (length (rows (imported_of df)))
                                +:+ " rows!")] |})
    else (Err (AttributeError "'str' object has no attribute 'fillna'"),
          with_heap h3 w).
Proof.
  intros Hfile Hread Hcols u h2 u' h3.
  apply Forall_cons in Hcols as [Hdate [Hcat [Hamount _]%Forall_cons]%Forall_cons].
  unfold upload_handler. rewrite Hfile, Hread.
  rewrite <- (with_heap_id w) at 1.
  rewrite (run_bind _ _ _ u (with_heap (<[u := df]> (heap w)) w)) by done.
  run_step (columns_heap u). rewrite lookup_total_insert_eq.
  rewrite decide_True by by repeat constructor.
  run_step (getitem_heap u "Date"); [| by rewrite lookup_total_insert_eq].
  run_step (setitem_heap u "Date").
  rewrite lookup_total_insert_eq, insert_insert_eq.
  set (v1 := Frame.setitem df "Date" _).
  assert (Hc1 : columns v1 = columns df) by by apply setitem_columns.
  run_step (getitem_heap u "Amount"); [| by rewrite lookup_total_insert_eq, Hc1].
  run_step (setitem_heap u "Amount").
  rewrite lookup_total_insert_eq, insert_insert_eq.
  set (v2 := Frame.setitem v1 "Amount" _).
  assert (Hc2 : columns v2 = columns df).
  { subst v2. rewrite setitem_columns; [done | by rewrite Hc1]. }
  assert (Hv2 : v2 = {| columns := columns df; rows := parsed_rows df |}).
  { rewrite <- (DataFrame_eta v2). by rewrite Hc2. }
  rewrite Hv2. clearbody v2. clear v1 Hc1 Hc2 Hv2 v2.
  run_step (dropna_heap u). rewrite lookup_total_insert_eq. fold h2 u'.
  set (v3 := Frame.dropna _).
  assert (Hc3 : columns v3 = columns df) by done.
  assert (Hr3 : rows v3 = filter (notna_row (columns df)) (parsed_rows df)) by done.
  run_step (getitem_heap u' "Category"); [| by rewrite lookup_total_insert_eq, Hc3].
  run_step (setitem_heap u' "Category").
  rewrite lookup_total_insert_eq, insert_insert_eq.
  set (v4 := Frame.setitem v3 "Category" _).
  assert (Hc4 : columns v4 = columns df).
  { subst v4. rewrite setitem_columns; [done | by rewrite Hc3]. }
  assert (Hv4 : v4 = imported_of df).
  { rewrite <- (DataFrame_eta v4), <- (DataFrame_eta (imported_of df)). f_equal; [done |].
    subst v4. by rewrite setitem_fmap, Hr3. }
  run_step (get_heap u' "Description"). rewrite lookup_total_insert_eq.
  unfold Frame.get. destruct (decide ("Description" ∈ columns df)) as [Hdesc | Hdesc].
  2: { rewrite getitem_not_elem by by rewrite Hc4.
       erewrite run_bind_Err; [| reflexivity]. by rewrite Hv4. }
  rewrite getitem_elem by by rewrite Hc4.
  run_step (lift_Ok (A := list cell)).
  run_step (setitem_heap u' "Description").
  rewrite lookup_total_insert_eq, insert_insert_eq.
  set (v5 := Frame.setitem v4 "Description" _).
  assert (Hv5 : v5 = imported_of df).
  { rewrite <- (DataFrame_eta v5), <- (DataFrame_eta (imported_of df)). f_equal.
    - subst v5. rewrite setitem_columns; [done | by rewrite Hc4].
    - subst v5. rewrite setitem_fmap. rewrite Hv4 at 1. unfold imported_of at 1.
      cbn [rows]. rewrite <- list_fmap_compose.
      etransitivity; [| by apply imported_rows_fill].
      apply list_fmap_ext. intros _ r _. reflexivity. }
  rewrite Hv5. clearbody v5. clear v3 Hc3 Hr3 v4 Hc4 Hv4 Hv5 v5. fold h3.
  assert (Hu' : h3 !!! u' = imported_of df) by apply lookup_total_insert_eq.
  assert (Hne : fresh (dom h3) ≠ u').
  { intros Heq. apply (is_fresh (dom h3)). rewrite Heq.
    apply elem_of_dom. unfold h3. by rewrite lookup_insert_eq. }
  run_step get_session_df_heap.
  run_step (concat_heap (session_df w) u'). rewrite Hu'.
  run_step set_session_df_heap.
  run_step len_run. cbn [heap].
  rewrite lookup_total_insert_ne, Hu' by done.
  reflexivity.
Qed.

Lemma upload_run i file df w :
  uploaded_file i = Some file → read_csv file = Ok df →
  Forall (λ c, c ∈ columns df) ["Date"; "Category"; "Amount"; "Description"] →
  wf w →
  let rw := upload_handler i w in
  rw.1 = Err RerunException
  ∧ ledger rw.2 = Frame.concat (ledger w) (imported_of df)
  ∧ wf rw.2
  ∧ session_budget rw.2 = session_budget w
  ∧ page rw.2 = page w ++ [SidebarSuccess
       ("Uploaded " +:+ pretty (length (rows (imported_of df))) +:+ " rows!")]
  ∧ (∀ k, k ∈ dom (heap w) → heap rw.2 !! k = heap w !! k).
Proof.
  intros Hfile Hread Hcols Hwf rw. subst rw.
  apply Forall_cons in Hcols
    as [Hdate [Hcat [Hamount [Hdesc _]%Forall_cons]%Forall_cons]%Forall_cons].
  rewrite (upload_handler_run i file df w Hfile Hread) by by repeat constructor.
  cbv zeta. rewrite decide_True by done. unfold wf, ledger in *. cbn [fst snd heap
    session_df session_budget page].
  rewrite lookup_total_insert_eq.
  set (h2 := <[fresh (dom (heap w)) := _]> (heap w)).
  set (h3 := <[fresh (dom h2) := _]> h2).
  assert (H3 : ∀ k, k ∈ dom (heap w) → h3 !! k = heap w !! k)
    by (intros; by apply insert2_fresh_frame).
  split; [done |]. split; [by rewrite (lookup_total_alt h3), H3, <- lookup_total_alt |].
  split; [rewrite dom_insert_L; set_solver |]. split; [done |]. split; [done |].
  intros k Hk. rewrite lookup_insert_ne; [by apply H3 |].
  intros <-. apply (is_fresh (dom h3)). by do 2 apply dom_insert_mono.
Qed.

Lemma upload_run_no_description i file df w :
  uploaded_file i = Some file → read_csv file = Ok df →
  Forall (λ c, c ∈ columns df) ["Date"; "Category"; "Amount"] →
  "Description" ∉ columns df →
  let rw := upload_handler i w in
  rw.1 = Err (AttributeError "'str' object has no attribute 'fillna'")
  ∧ session_df rw.2 = session_df w
  ∧ session_budget rw.2 = session_budget w
  ∧ page rw.2 = page w
  ∧ (∀ k, k ∈ dom (heap w) → heap rw.2 !! k = heap w !! k).
Proof.
  intros Hfile Hread Hcols Hdesc rw. subst rw.
  rewrite (upload_handler_run i file df w Hfile Hread Hcols).
  cbv zeta. rewrite decide_False by done.
  repeat (split; [done |]). intros k Hk. by apply insert2_fresh_frame.
Qed.

Lemma upload_run_missing i file df w :
  uploaded_file i = Some file → read_csv file = Ok df →
  ¬ Forall (λ c, c ∈ columns df) ["Date"; "Category"; "Amount"] →
  let rw := upload_handler i w in
  rw.1 = Ok ()
  ∧ session_df rw.2 = session_df w
  ∧ session_budget rw.2 = session_budget w
  ∧ page rw.2 = page w
  ∧ (∀ k, k ∈ dom (heap w) → heap rw.2 !! k = heap w !! k).
Proof.
  intros Hfile Hread Hcols.
  unfold upload_handler. rewrite Hfile, Hread.
  unfold mbind, Run_bind, lift, Obj.new, Obj.columns, Obj.load, mret, Run_ret.
  simpl. rewrite lookup_total_insert_eq. rewrite decide_False by done.
  simpl. repeat split. intros k Hk. by apply insert_fresh_frame.
Qed.

Lemma upload_run_unreadable i file e w :
  uploaded_file i = Some file → read_csv file = Err e →
  upload_handler i w = (Err e, w).
Proof. intros Hfile Hread. unfold upload_handler. by rewrite Hfile, Hread. Qed.

Lemma upload_skip i w : uploaded_file i = None → upload_handler i w = (Ok (), w).
Proof. intros Hu. unfold upload_handler. by rewrite Hu. Qed.

End uploads.

(** ** What cleaning and an import keep *)

Lemma Forall2_filter_sublist {A B} (R : A → B → Prop) (Q : B → Prop)
    `{!∀ y, Decision (Q y)} (l : list A) (k : list B) :
  Forall2 R l k →
  ∃ l', sublist l' l ∧ Forall2 (λ x y, R x y ∧ Q y) l' (filter Q k).
Proof.
  induction 1 as [| x y l k Hxy _ (l' & Hsub & HF)].
  - exists []. split; [done | constructor].
  - destruct (decide (Q y)) as [Hy | Hy].
    + exists (x :: l'). rewrite filter_cons_True by done.
      split; [by constructor | by constructor].
    + exists l'. rewrite filter_cons_False by done.
      split; [by constructor | done].
Qed.

Lemma sublist_app_length {A} (P : A → Prop) (l l1 l2 : list A) :
  sublist l (l1 ++ l2) → Forall P l → Forall (λ x, ¬ P x) l1 →
  (length l ≤ length l2)%nat.
Proof.
  intros (k1 & k2 & -> & Hk1 & Hk2)%sublist_app_r HP Hl1.
  apply Forall_app in HP as [HP1 _].
  destruct k1 as [| x k1].
  - simpl. by apply sublist_length.
  - exfalso. apply Forall_cons in HP1 as [Hx _].
    assert (Hin : x ∈ l1) by (eapply elem_of_sublist; [left | exact Hk1]).
    exact (proj1 (Forall_forall _ _) Hl1 x Hin Hx).
Qed.

Lemma sublist_app_length_l {A} (P : A → Prop) (l l1 l2 : list A) :
  sublist l (l1 ++ l2) → Forall P l → Forall (λ x, ¬ P x) l2 →
  (length l ≤ length l1)%nat.
Proof.
  intros (k1 & k2 & -> & Hk1 & Hk2)%sublist_app_r HP Hl2.
  apply Forall_app in HP as [_ HP2].
  destruct k2 as [| x k2].
  - rewrite app_nil_r. by apply sublist_length.
  - exfalso. apply Forall_cons in HP2 as [Hx _].
    assert (Hin : x ∈ l2) by (eapply elem_of_sublist; [left | exact Hk2]).
    exact (proj1 (Forall_forall _ _) Hl2 x Hin Hx).
Qed.

Lemma filter_all {A} (P : A → Prop) `{!∀ x, Decision (P x)} (l : list A) :
  Forall P l → filter P l = l.
Proof.
  induction 1 as [| x l Hx _ IH]; [done |]. by rewrite filter_cons_True, IH.
Qed.

Section keeping.
Context `{Pandas}.

(** The records that pass [dropna] once dates and amounts are parsed, in
    the order of the frame, each with the record it comes from. *)
Lemma parsed_kept raw :
  ∃ kept, sublist kept (rows raw)
    ∧ Forall2 (λ r0 r2, (∃ d a, is_datetime d ∧ is_numeric a
                              ∧ r2 = <["Amount" := a]> (<["Date" := d]> r0))
                        ∧ notna_row (columns raw) r2)
        kept (filter (notna_row (columns raw)) (parsed_rows raw)).
Proof. apply Forall2_filter_sublist, parsed_rows_spec. Qed.

Lemma kept_from_parsed raw r0 d a (f : gmap string cell → gmap string cell) :
  notna_row (columns raw) (<["Amount" := a]> (<["Date" := d]> r0)) →
  (∀ r, row_get (f r) "Category" = categorize (row_get r "Category")) →
  (∀ r c, c ∉ ["Date"; "Amount"; "Category"; "Month"] → f r !! c = r !! c) →
  kept_from raw r0 (f (<["Amount" := a]> (<["Date" := d]> r0))).
Proof.
  intros Hna Hcat Hother. split; [| split].
  - intros c Hc Hd Ha.
    assert (Hc' := proj1 (Forall_forall _ _) Hna c Hc). simpl in Hc'.
    by rewrite !row_get_insert_ne in Hc' by done.
  - intros c Hc. rewrite Hother by done.
    rewrite !lookup_insert_ne; [done | |]; intros <-; apply Hc; set_solver.
  - rewrite Hcat. by rewrite !row_get_insert_ne by done.
Qed.

Lemma clean_kept raw dfc :
  clean raw = Ok dfc →
  ∃ kept, sublist kept (rows raw) ∧ Forall2 (kept_from raw) kept (rows dfc).
Proof.
  intros [_ ->]%clean_inv.
  destruct (parsed_kept raw) as (kept & Hsub & HF).
  exists kept. split; [done |]. simpl. apply Forall2_fmap_r.
  eapply Forall2_impl; [exact HF |].
  intros r0 r2 [(d & a & _ & _ & ->) Hna].
  apply (kept_from_parsed raw r0 d a clean_row); [done | |].
  - intros r. unfold clean_row. by rewrite row_get_insert_ne, row_get_insert.
  - intros r c Hc. unfold clean_row.
    rewrite !lookup_insert_ne; [done | |]; intros <-; apply Hc; set_solver.
Qed.

Lemma parsed_rows_valid raw :
  Forall (valid_row (columns raw)) (rows raw) → parsed_rows raw = rows raw.
Proof.
  intros Hv. unfold parsed_rows.
  assert (H1 : zip_with (λ r v, <["Date" := v]> r) (rows raw)
                 (to_datetime ((λ r, row_get r "Date") <$> rows raw)) = rows raw).
  { rewrite to_datetime_fix.
    - rewrite zip_with_fmap_same. transitivity (id <$> rows raw); [| apply list_fmap_id].
      apply Forall_fmap_ext_1. eapply Forall_impl; [exact Hv |].
      intros r ([t Ht] & _); simpl. unfold row_get. rewrite Ht. by apply insert_id.
    - apply Forall_fmap. eapply Forall_impl; [exact Hv |].
      intros r ([t Ht] & _); simpl. unfold row_get. by rewrite Ht. }
  cbv zeta. rewrite H1. rewrite to_numeric_fix.
  - rewrite zip_with_fmap_same. transitivity (id <$> rows raw); [| apply list_fmap_id].
    apply Forall_fmap_ext_1. eapply Forall_impl; [exact Hv |].
    intros r (_ & [x Hx] & _); simpl. unfold row_get. rewrite Hx. by apply insert_id.
  - apply Forall_fmap. eapply Forall_impl; [exact Hv |].
    intros r (_ & [x Hx] & _); simpl. unfold row_get. by rewrite Hx.
Qed.

Lemma clean_valid raw :
  Forall (λ c, c ∈ columns raw) ["Date"; "Amount"; "Category"] →
  Forall (valid_row (columns raw)) (rows raw) →
  clean raw = Ok (cleaned_of raw) ∧ rows (cleaned_of raw) = clean_row <$> rows raw.
Proof.
  intros Hcols Hv. split; [by rewrite clean_eq, decide_True |].
  unfold cleaned_of. cbn [rows]. rewrite parsed_rows_valid by done.
  rewrite filter_all; [done |]. eapply Forall_impl; [exact Hv |].
  by intros r (_ & _ & Hr).
Qed.

(** The records of a parsed frame that pass [dropna] are valid. *)
Lemma parsed_filter_valid df :
  "Date" ∈ columns df → "Amount" ∈ columns df →
  Forall (valid_row (columns df)) (filter (notna_row (columns df)) (parsed_rows df)).
Proof.
  intros Hdate Hamount. apply Forall_forall.
  intros r [Hna [i Hi]%list_elem_of_lookup]%list_elem_of_filter.
  destruct (Forall2_lookup_r _ _ _ _ _ (parsed_rows_spec df) Hi)
    as (r0 & _ & d & a & Hd & Ha & ->).
  assert (Hd' := proj1 (Forall_forall _ _) Hna _ Hdate).
  assert (Ha' := proj1 (Forall_forall _ _) Hna _ Hamount). simpl in Hd', Ha'.
  rewrite row_get_insert_ne, row_get_insert in Hd' by done.
  rewrite row_get_insert in Ha'.
  split; [| split; [| done]].
  - rewrite lookup_insert_ne, lookup_insert_eq by done. destruct d; try done. eauto.
  - rewrite lookup_insert_eq. destruct a; try done. eauto.
Qed.

Lemma valid_row_insert_category cols r v :
  v ≠ NA → valid_row cols r → valid_row cols (<["Category" := v]> r).
Proof.
  intros Hv (Hd & Ha & Hna). split; [| split].
  - by rewrite lookup_insert_ne.
  - by rewrite lookup_insert_ne.
  - eapply Forall_impl; [exact Hna |]. intros c Hc; simpl in *.
    destruct (decide (c = "Category")) as [-> | Hne].
    + by rewrite row_get_insert.
    + by rewrite row_get_insert_ne.
Qed.

Lemma categorize_notna x : categorize x ≠ NA.
Proof.
  assert (Hc := categorize_is_category x).
  apply is_category_Str in Hc as (s & -> & _). done.
Qed.

End keeping.

(** ** The cache of [clean_data] (C2) *)

(** Fewer positions than rows: one row is not drawn. *)
Lemma position_not_drawn (l : list nat) (n : nat) :
  (length l < n)%nat → ∃ p, (p < n)%nat ∧ p ∉ l.
Proof.
  intros Hlen.
  destruct (decide (Forall (λ p, p ∈ l) (seq 0 n))) as [Hall | Hnot].
  - exfalso.
    assert (Hsub : seq 0 n ⊆+ l).
    { apply NoDup_submseteq; [apply NoDup_seq |].
      intros p Hp. exact (proj1 (Forall_forall _ _) Hall p Hp). }
    apply submseteq_length in Hsub. rewrite length_seq in Hsub. lia.
  - apply not_Forall_Exists in Hnot; [| apply _].
    apply Exists_exists in Hnot as (p & Hp & Hnp).
    exists p. split; [| done]. apply elem_of_seq in Hp. lia.
Qed.

Lemma dtype_ext (s s' : list cell) :
  Forall2 (λ c c', (is_datetime c ↔ is_datetime c') ∧ (is_numeric c ↔ is_numeric c')
                   ∧ (is_period c ↔ is_period c')) s s' →
  dtype s = dtype s'.
Proof.
  intros HF.
  assert (Hd : Forall is_datetime s ↔ Forall is_datetime s').
  { split; intros Hs.
    - eapply Forall2_Forall_r; [exact HF |]. eapply Forall_impl; [exact Hs |].
      intros c Hc c' (Hcc & _). by apply Hcc.
    - eapply Forall2_Forall_l; [exact HF |]. eapply Forall_impl; [exact Hs |].
      intros c Hc c' (Hcc & _). by apply Hcc. }
  assert (Hn : Forall is_numeric s ↔ Forall is_numeric s').
  { split; intros Hs.
    - eapply Forall2_Forall_r; [exact HF |]. eapply Forall_impl; [exact Hs |].
      intros c Hc c' (_ & Hcc & _). by apply Hcc.
    - eapply Forall2_Forall_l; [exact HF |]. eapply Forall_impl; [exact Hs |].
      intros c Hc c' (_ & Hcc & _). by apply Hcc. }
  assert (Hp : Forall is_period s ↔ Forall is_period s').
  { split; intros Hs.
    - eapply Forall2_Forall_r; [exact HF |]. eapply Forall_impl; [exact Hs |].
      intros c Hc c' (_ & _ & Hcc). by apply Hcc.
    - eapply Forall2_Forall_l; [exact HF |]. eapply Forall_impl; [exact Hs |].
      intros c Hc c' (_ & _ & Hcc). by apply Hcc. }
  unfold dtype.
  repeat match goal with
         | |- context [decide ?P] => destruct (decide P)
         end; tauto || done.
Qed.

Lemma lunch_valid a : valid_row ledger_columns (lunch a).
Proof.
  split; [| split].
  - eexists. unfold lunch, day_2024. by rewrite lookup_insert_eq.
  - eexists. unfold lunch. by rewrite !lookup_insert_ne, lookup_insert_eq by done.
  - repeat constructor; unfold lunch, row_get;
      rewrite ?lookup_insert_eq, ?lookup_insert_ne by done; simpl;
      rewrite ?lookup_insert_eq, ?lookup_insert_ne by done; done.
Qed.

(** Lunches differ in their amounts only. *)
Lemma lunch_get a c : c ≠ "Amount" → row_get (lunch a) c = row_get (lunch (Q2Qc 1)) c.
Proof.
  intros Hc. unfold lunch, row_get.
  destruct (decide (c = "Date")) as [-> | ?]; [by rewrite !lookup_insert_eq |].
  rewrite !(lookup_insert_ne _ "Date") by done.
  destruct (decide (c = "Category")) as [-> | ?]; [by rewrite !lookup_insert_eq |].
  rewrite !(lookup_insert_ne _ "Category") by done.
  by rewrite !(lookup_insert_ne _ "Amount") by done.
Qed.

Section stale.
Context `{Pandas} `{Streamlit}.

Lemma lunches_clean n :
  clean (lunches n) = Ok (cleaned_of (lunches n))
  ∧ rows (cleaned_of (lunches n)) = clean_row <$> rows (lunches n).
Proof.
  apply clean_valid; [by repeat constructor |].
  apply Forall_replicate, lunch_valid.
Qed.

Lemma lunches_but_clean n p :
  clean (lunches_but n p) = Ok (cleaned_of (lunches_but n p))
  ∧ rows (cleaned_of (lunches_but n p)) = clean_row <$> rows (lunches_but n p).
Proof.
  apply clean_valid; [by repeat constructor |].
  apply Forall_insert; [| apply lunch_valid].
  apply Forall_replicate, lunch_valid.
Qed.

Lemma lunches_but_dtypes n p : dtypes (lunches_but n p) = dtypes (lunches n).
Proof.
  unfold dtypes. cbn [columns]. apply list_fmap_ext. intros _ c _. f_equal.
  apply dtype_ext. cbn [rows lunches lunches_but].
  apply Forall2_fmap, Forall2_same_length_lookup. split.
  - by rewrite length_insert.
  - intros i r r' Hr Hr'.
    apply lookup_replicate in Hr' as [-> _].
    destruct (decide (i = p)) as [-> | Hne].
    + rewrite list_lookup_insert_eq in Hr.
      2: { apply lookup_lt_Some in Hr. by rewrite length_insert in Hr. }
      injection Hr as <-.
      destruct (decide (c = "Amount")) as [-> | Hc]; [done |].
      by rewrite lunch_get.
    + rewrite list_lookup_insert_ne in Hr by done.
      by apply lookup_replicate in Hr as [-> _].
Qed.

(** A change at a position that is not drawn leaves the key as it is. *)
Lemma lunches_but_key n p :
  50000 ≤ Z.of_nat n → p ∉ sample n →
  cache_key (lunches_but n p) = cache_key (lunches n).
Proof.
  intros Hn Hp. unfold cache_key. rewrite lunches_but_dtypes.
  cbn [rows columns lunches lunches_but]. rewrite length_insert, length_replicate.
  rewrite decide_False by lia. f_equal.
  apply Forall_fmap_ext_1, Forall_forall. intros i Hi.
  rewrite list_lookup_insert_ne; [done |]. by intros ->.
Qed.

Lemma dtypes_columns df : (dtypes df).*1 = columns df.
Proof.
  unfold dtypes. rewrite <- list_fmap_compose.
  transitivity (id <$> columns df); [by apply list_fmap_ext | apply list_fmap_id].
Qed.

(** Below 50,000 rows the key is the frame. *)
Lemma cache_key_small df df' :
  Z.of_nat (length (rows df)) < 50000 → cache_key df' = cache_key df → df' = df.
Proof.
  intros Hsmall Hkey. unfold cache_key in Hkey. cbv zeta in Hkey.
  injection Hkey as Hn _ Htypes Hrows. rewrite Hn in Hrows.
  rewrite decide_True in Hrows by done.
  assert (Hcols : columns df' = columns df) by by rewrite <- !dtypes_columns, Htypes.
  assert (Hr : rows df' = rows df).
  { apply list_eq_same_length with (length (rows df)); [done | done |].
    intros i r' r Hi Hr' Hr.
    assert (Hin : i ∈ seq 0 (length (rows df))) by (apply elem_of_seq; lia).
    apply list_elem_of_lookup in Hin as [j Hj].
    apply (f_equal (λ l, l !! j)) in Hrows. rewrite !list_lookup_fmap, Hj in Hrows.
    simpl in Hrows. congruence. }
  destruct df, df'. simpl in *. congruence.
Qed.

Lemma cache_lookup_Some k cache v :
  cache_lookup k cache = Some v → (k, v) ∈ cache.
Proof.
  unfold cache_lookup. intros Hl.
  destruct (filter _ cache) as [| e l] eqn:Ef; [done |].
  injection Hl as <-.
  assert (He : e ∈ filter (λ e, e.1 = k) cache) by (rewrite Ef; left).
  apply list_elem_of_filter in He as [<- He]. by destruct e.
Qed.

(** For a ledger of fewer than 50,000 records, the decorated function
    returns what its body returns. *)
Lemma cached_clean_data_small cache df :
  cache_sound cache → Z.of_nat (length (rows df)) < 50000 →
  (cached_clean_data cache df).1 = clean df
  ∧ cache_sound (cached_clean_data cache df).2.
Proof.
  intros Hsound Hsmall. unfold cached_clean_data. cbv zeta.
  destruct (cache_lookup _ cache) as [v |] eqn:El.
  - split; [| done]. apply cache_lookup_Some in El.
    destruct (proj1 (Forall_forall _ _) Hsound _ El) as (df' & Hk & Hc).
    simpl in *. by rewrite <- (cache_key_small df df' Hsmall Hk).
  - destruct (clean df) as [v | e] eqn:Ec; [| done].
    split; [done |]. apply Forall_cons. split; [| done]. by exists df.
Qed.

End stale.

(** C2: the cache of [clean_data] returns the cleaned form of another
    ledger.  Take two ledgers of 50,000 lunches of 1 each, the second with
    2 for the lunch at a position [p] that Streamlit does not draw for the
    hash.  Cleaning keeps every record of both, so their cleaned forms
    differ at [p]; but the two have one key, and once the first is
    cleaned, the decorated call for the second returns the cleaned form of
    the first, where with nothing stored it returns the cleaned form of
    the second.  What the decorated [clean_data] returns is not fixed by
    the content of the raw ledger. *)
Theorem cached_clean_data_stale `{Pandas} `{Streamlit} :
  let n := Z.to_nat 50000 in
  ∃ p, (p < n)%nat ∧
    let df1 := lunches n in
    let df2 := lunches_but n p in
    let cache := [(cache_key df1, cleaned_of df1)] in
    clean df1 = Ok (cleaned_of df1)
    ∧ clean df2 = Ok (cleaned_of df2)
    ∧ rows (cleaned_of df1) !! p = Some (clean_row (lunch (Q2Qc 1)))
    ∧ rows (cleaned_of df2) !! p = Some (clean_row (lunch (Q2Qc 2)))
    ∧ cleaned_of df2 ≠ cleaned_of df1
    ∧ cached_clean_data [] df1 = (Ok (cleaned_of df1), cache)
    ∧ cached_clean_data cache df2 = (Ok (cleaned_of df1), cache)
    ∧ (cached_clean_data [] df2).1 = Ok (cleaned_of df2).
Proof.
  intros n.
  assert (Hn : Z.of_nat n = 50000) by (subst n; by rewrite Z2Nat.id).
  destruct (position_not_drawn (sample n) n) as (p & Hp & Hnp).
  { assert (Hs := sample_length n). lia. }
  exists p. split; [done |]. intros df1 df2 cache.
  destruct (lunches_clean n) as [E1 R1]. destruct (lunches_but_clean n p) as [E2 R2].
  fold df1 in E1, R1. fold df2 in E2, R2.
  assert (H1 : rows (cleaned_of df1) !! p = Some (clean_row (lunch (Q2Qc 1)))).
  { rewrite R1, list_lookup_fmap. subst df1. cbn [rows lunches].
    by rewrite lookup_replicate_2. }
  assert (H2 : rows (cleaned_of df2) !! p = Some (clean_row (lunch (Q2Qc 2)))).
  { rewrite R2, list_lookup_fmap. subst df2. cbn [rows lunches lunches_but].
    rewrite list_lookup_insert_eq; [done |]. by rewrite length_replicate. }
  split; [done |]. split; [done |]. split; [done |]. split; [done |]. split.
  { intros Heq. rewrite Heq, H1 in H2.
    assert (Hrow : clean_row (lunch (Q2Qc 1)) = clean_row (lunch (Q2Qc 2))) by congruence.
    assert (Ha : row_get (clean_row (lunch (Q2Qc 1))) "Amount"
                 = row_get (clean_row (lunch (Q2Qc 2))) "Amount") by by rewrite Hrow.
    vm_compute in Ha. discriminate. }
  split; [| split].
  - unfold cached_clean_data.
    cbn [cache_lookup filter list_filter head fmap option_fmap option_map].
    by rewrite E1.
  - unfold cached_clean_data. subst cache df2. rewrite lunches_but_key by (done || lia).
    unfold cache_lookup, filter. cbn [list_filter fst]. rewrite decide_True by done.
    done.
  - unfold cached_clean_data.
    cbn [cache_lookup filter list_filter head fmap option_fmap option_map].
    by rewrite E2.
Qed.

(** ** The order of the summaries *)

Lemma period_compare_antisym p q : period_compare q p = CompOpp (period_compare p q).
Proof.
  unfold period_compare. rewrite (Z.compare_antisym (p_year p)).
  destruct (p_year p ?= p_year q); simpl; [apply Z.compare_antisym | done..].
Qed.

Lemma timestamp_compare_antisym t u :
  timestamp_compare u t = CompOpp (timestamp_compare t u).
Proof.
  unfold timestamp_compare. rewrite (Z.compare_antisym (ts_year t)).
  destruct (ts_year t ?= ts_year u); simpl; [| done..].
  rewrite (Z.compare_antisym (ts_month t)).
  destruct (ts_month t ?= ts_month u); simpl; [| done..].
  rewrite (Z.compare_antisym (ts_day t)).
  destruct (ts_day t ?= ts_day u); simpl; [apply Z.compare_antisym | done..].
Qed.

Lemma cell_compare_antisym a b : cell_compare b a = CompOpp (cell_compare a b).
Proof.
  destruct a, b; simpl; try done.
  - apply String.compare_antisym.
  - unfold Qccompare. symmetry. apply Qcompare_antisym.
  - apply timestamp_compare_antisym.
  - apply period_compare_antisym.
Qed.

Global Instance cell_le_total : Total cell_le.
Proof.
  intros a b. unfold cell_le. rewrite (cell_compare_antisym a b).
  destruct (cell_compare a b); simpl; auto.
Qed.



Global Instance period_le_transitive : Transitive period_le.
Proof. intros p q r. apply period_le_trans. Qed.




Lemma group_total_category df k :
  Cleaned df →
  group_total ((λ r, (row_get r "Category", amount_of r)) <$> rows df) k
  = category_spend df k.
Proof.
  intros Hdf. unfold group_total, category_spend.
  rewrite filter_fmap, <- list_fmap_compose. simpl.
  rewrite (Cleaned_amounts_sum df); [done | done |].
  intros r [_ ?]%list_elem_of_filter. done.
Qed.


Lemma Cleaned_columns df :
  Cleaned df →
  "Date" ∈ columns df ∧ "Amount" ∈ columns df ∧ "Category" ∈ columns df
  ∧ "Month" ∈ columns df.
Proof.
  intros [Hcols _ _].
  apply Forall_cons in Hcols
    as [? [? [? [? _]%Forall_cons]%Forall_cons]%Forall_cons]. done.
Qed.

Lemma cat_sum_Cleaned df :
  Cleaned df →
  cat_sum df
  = Ok ((λ k, (k, category_spend df k)) <$>
          merge_sort cell_le
            (remove_dups ((λ r, (row_get r "Category", amount_of r)) <$> rows df).*1)).
Proof.
  intros Hdf. destruct (Cleaned_columns df Hdf) as (_ & _ & Hcat & _).
  unfold cat_sum. rewrite groupby_sum_Cleaned; [| done | done |].
  - cbv zeta. f_equal. apply list_fmap_ext. intros _ k _. f_equal.
    by apply group_total_category.
  - by apply Cleaned_notna_col.
Qed.

Lemma monthly_sum_Cleaned df :
  Cleaned df →
  monthly_sum df
  = Ok ((λ k, (k, month_spend df k)) <$>
          merge_sort cell_le
            (remove_dups ((λ r, (row_get r "Month", amount_of r)) <$> rows df).*1)).
Proof.
  intros Hdf. destruct (Cleaned_columns df Hdf) as (_ & _ & _ & Hmonth).
  unfold monthly_sum. rewrite groupby_sum_Cleaned; [| done | done |].
  - cbv zeta. f_equal. apply list_fmap_ext. intros _ k _. f_equal.
    by apply group_total_month.
  - by apply Cleaned_notna_col.
Qed.

Lemma total_spent_Cleaned df :
  Cleaned df → total_spent df = Ok (Qc_sum (amount_of <$> rows df)).
Proof.
  intros Hdf. destruct (Cleaned_columns df Hdf) as (_ & Hamount & _).
  unfold total_spent. rewrite getitem_elem, bind_Ok by done.
  rewrite (series_sum_amounts df) by done.
  by rewrite (Cleaned_amounts_sum df).
Qed.

(** ** The alert, the export and the page *)

Lemma select_rows_subseteq df mask : rows (Frame.select_rows df mask) ⊆ rows df.
Proof.
  unfold Frame.select_rows. cbn [rows]. intros r Hr.
  apply list_elem_of_fmap in Hr as ([r' b] & -> & [_ Hin]%list_elem_of_filter).
  simpl. by apply elem_of_zip_l in Hin.
Qed.

Lemma budget_alert_Cleaned budget df :
  Cleaned df → ∃ alert, budget_alert budget df = Ok alert.
Proof.
  intros Hdf. destruct (Cleaned_columns df Hdf) as (_ & Hamount & _ & Hmonth).
  unfold budget_alert. case_decide; [| eauto].
  rewrite getitem_elem, bind_Ok by done.
  unfold series_max. rewrite decide_True, bind_Ok.
  2: { apply Forall_fmap, Forall_forall. intros r Hr.
       destruct (Cleaned_month _ _ Hdf Hr) as [p Hp]. simpl. by rewrite Hp. }
  unfold Frame.getitem at 1. rewrite decide_True by done. rewrite bind_Ok.
  rewrite (series_sum_amounts df), bind_Ok; [| done | apply select_rows_subseteq].
  case_decide; eauto.
Qed.

Lemma export_report_Cleaned df cats months :
  cat_sum df = Ok cats → monthly_sum df = Ok months →
  export_report df
  = Ok [ {| sheet_name := "Expenses"; header := columns df; body := records df |};
         {| sheet_name := "Category Summary"; header := ["Category"; "Amount"];
            body := (λ kv, [kv.1; Num kv.2]) <$> cats |};
         {| sheet_name := "Monthly Summary"; header := ["Month"; "Amount"];
            body := (λ kv, [kv.1; Num kv.2]) <$> months |} ].
Proof.
  unfold cat_sum, monthly_sum, export_report. intros -> ->. done.
Qed.

Lemma select_columns_Ok df cols :
  Forall (λ c, c ∈ columns df) cols →
  Frame.select_columns df cols
  = Ok {| columns := cols; rows := reindex cols <$> rows df |}.
Proof.
  intros Hcols. unfold Frame.select_columns.
  replace (filter (λ c, c ∉ columns df) cols) with (@nil string); [done |].
  symmetry. induction Hcols as [| c l Hc _ IH]; [done |].
  by rewrite filter_cons_False by (by intros ?).
Qed.

Section pages.
Context `{Pandas}.

Lemma columns_cleaned_of raw c : c ∈ columns raw → c ∈ columns (cleaned_of raw).
Proof.
  intros Hc. unfold cleaned_of. cbn [columns].
  case_decide; [done |]. apply elem_of_app. by left.
Qed.

Lemma session_ok_clean w :
  session_ok w → clean (ledger w) = Ok (cleaned_of (ledger w)).
Proof.
  intros [_ Hcols]. rewrite clean_eq, decide_True; [done |].
  apply Forall_cons in Hcols
    as [? [? [? _]%Forall_cons]%Forall_cons]. by repeat constructor.
Qed.

(** The dashboard as it is modelled (no chart and no workbook fails), in a
    session in a good state: it returns, and the page gets the message of
    an empty ledger or else the alert, if any, and the seven elements from
    the metrics to the download button. *)
Lemma dashboard_run w :
  session_ok w →
  let dfc := cleaned_of (ledger w) in
  let rw := dashboard w in
  rw.1 = Ok ()
  ∧ ∃ view, page rw.2 = page w ++ view
    ∧ Forall (λ e, ¬ is_notice e) view
    ∧ if decide (rows dfc = [])
      then view = [Info "Add expenses via sidebar or upload CSV to get started!"]
      else ∃ alert total avg cats months report,
        budget_alert (session_budget w) dfc = Ok alert
        ∧ total_spent dfc = Ok total
        ∧ avg_monthly dfc = Ok (Some avg)
        ∧ cat_sum dfc = Ok cats
        ∧ monthly_sum dfc = Ok months
        ∧ export_report dfc = Ok report
        ∧ view = alert_elements alert ++
            [Metric "Total Spent" (Some total); Metric "Avg Monthly" (Some avg);
             MetricCount "Entries" (length (rows dfc));
             Table {| columns := ledger_columns;
                      rows := reindex ledger_columns <$> rows dfc |};
             PieChart cats; BarChart months; DownloadButton report].
Proof.
  intros Hok dfc rw. assert (Hclean := session_ok_clean w Hok). fold dfc in Hclean.
  assert (Hdf := clean_Cleaned _ _ Hclean).
  destruct (Cleaned_columns dfc Hdf) as (Hdate & _).
  assert (Hret := clean_data_returned (session_df w) w).
  fold (ledger w) in Hret. rewrite Hclean in Hret.
  destruct (clean_data_world (session_df w) w) as (_ & Hb & Hp & _).
  subst rw. unfold dashboard, mbind, Run_bind, get_session_df.
  destruct (clean_data (session_df w) w) as [[df' | e] w1]; [| done].
  simpl in Hret, Hb, Hp. injection Hret as Hret.
  unfold Obj.load. rewrite Hret.
  destruct (decide (rows dfc = [])) as [Hrows | Hrows].
  - unfold Frame.empty. rewrite bool_decide_eq_true_2 by by left.
    simpl. split; [done |]. eexists. rewrite Hp. split; [done |].
    split; [| done]. repeat constructor. by intros ?.
  - unfold Frame.empty. rewrite bool_decide_eq_false_2.
    2: { intros [? | Hc]; [done |]. rewrite Hc in Hdate. by apply elem_of_nil in Hdate. }
    destruct (budget_alert_Cleaned (session_budget w) dfc Hdf) as [alert Halert].
    assert (Htotal := total_spent_Cleaned dfc Hdf).
    assert (Havg := avg_monthly_mean _ _ Hclean Hrows).
    assert (Hcats := cat_sum_Cleaned dfc Hdf).
    assert (Hmonths := monthly_sum_Cleaned dfc Hdf).
    assert (Hreport := export_report_Cleaned dfc _ _ Hcats Hmonths).
    assert (Htable : Frame.select_columns dfc ["Date"; "Category"; "Amount"; "Description"]
                     = Ok {| columns := ledger_columns;
                             rows := reindex ledger_columns <$> rows dfc |}).
    { apply select_columns_Ok. destruct Hok as [_ Hcols].
      eapply Forall_impl; [exact Hcols |]. intros c. apply columns_cleaned_of. }
    unfold get_session_budget, lift, show, mbind, Run_bind.
    rewrite Hb, Halert, Htotal, Havg, Htable, Hcats, Hmonths, Hreport.
    destruct alert as [a |]; simpl; (split; [done |]); eexists;
      rewrite Hp, <- ?app_assoc; simpl; (split; [done |]);
      (split; [repeat constructor; by intros ? |]);
      [exists (Some a) | exists None]; eexists _, _, _, _, _; repeat split.
Qed.

End pages.

(** ** The session across runs *)

Global Instance keeps_ok_preorder : PreOrder keeps_ok.
Proof. split; unfold keeps_ok; [by intros w | intros w1 w2 w3; auto]. Qed.

Lemma session_ok_frames w w' :
  session_ok w → session_df w' = session_df w →
  (∀ k, k ∈ dom (heap w) → heap w' !! k = heap w !! k) →
  session_ok w'.
Proof.
  intros [Hwf Hcols] Hdf Hh. destruct (wf_frames w w' Hwf Hdf Hh) as [Hwf' Hl].
  split; [done | by rewrite Hl].
Qed.

Lemma session_ok_concat w w' b :
  session_ok w → wf w' → ledger w' = Frame.concat (ledger w) b → session_ok w'.
Proof.
  intros [_ Hcols] Hwf' Hl. split; [done |]. rewrite Hl.
  eapply Forall_impl; [exact Hcols |]. intros c. apply columns_concat_l.
Qed.

Lemma session_ok_start_run w : session_ok (start_run w) ↔ session_ok w.
Proof. done. Qed.

(** What a handler does to the session: it ends the run by a rerun, or
    leaves the ledger and the budget as they are. *)
Lemma add_expense_cases i w :
  let rw := add_expense_handler i w in
  (add_expense i = true ∧ (0 < amount i)%Qc)
  ∨ ((add_expense i = true → ¬ (0 < amount i)%Qc)
     ∧ rw.1 = Ok () ∧ heap rw.2 = heap w ∧ session_df rw.2 = session_df w
     ∧ session_budget rw.2 = session_budget w
     ∧ page rw.2 = page w ++ (if add_expense i
                               then [SidebarError "Amount must be > 0"] else [])).
Proof.
  unfold add_expense_handler. destruct (add_expense i); [| right].
  - case_decide; [by left | right]. done.
  - simpl. by rewrite app_nil_r.
Qed.

Lemma budget_cases i w :
  budget_handler i w
  = if set_budget i
    then (Err RerunException,
          {| heap := heap w; session_df := session_df w;
             session_budget := budget_input i; page := page w |})
    else (Ok (), w).
Proof. unfold budget_handler. by destruct (set_budget i). Qed.

Section runs.
Context `{Pandas}.

Lemma add_expense_keeps i : preserves keeps_ok (add_expense_handler i).
Proof.
  intros w Hok. destruct (add_expense_cases i w) as [[Ha Hamt] | (_ & _ & Hh & Hdf & _)].
  - destruct (add_expense_run i w Ha Hamt (proj1 Hok)) as (_ & Hl & Hwf & _).
    by eapply session_ok_concat.
  - apply (session_ok_frames w); [done.. |]. intros k _. by rewrite Hh.
Qed.

Lemma budget_keeps i : preserves keeps_ok (budget_handler i).
Proof. intros w Hok. rewrite budget_cases. by destruct (set_budget i). Qed.

(** An upload ends in a rerun with the ledger extended, or leaves the
    session and the page as they are: when no file is chosen, when the
    file cannot be read, when it lacks a required column, and when it has
    these but no Description. *)
Lemma upload_cases i w :
  wf w →
  let rw := upload_handler i w in
  (∃ file df, uploaded_file i = Some file ∧ read_csv file = Ok df
     ∧ Forall (λ c, c ∈ columns df) ["Date"; "Category"; "Amount"; "Description"]
     ∧ rw.1 = Err RerunException
     ∧ ledger rw.2 = Frame.concat (ledger w) (imported_of df) ∧ wf rw.2
     ∧ session_budget rw.2 = session_budget w)
  ∨ (session_df rw.2 = session_df w
     ∧ session_budget rw.2 = session_budget w
     ∧ page rw.2 = page w
     ∧ (∀ k, k ∈ dom (heap w) → heap rw.2 !! k = heap w !! k)
     ∧ (rw.1 = Ok ()
        ∨ ∃ file, uploaded_file i = Some file
            ∧ ((∃ e, read_csv file = Err e ∧ rw.1 = Err e)
               ∨ (∃ df, read_csv file = Ok df ∧ ("Description" ∉ columns df)
                    ∧ rw.1 = Err (AttributeError
                                    "'str' object has no attribute 'fillna'"))))).
Proof.
  intros Hwf rw. subst rw.
  destruct (uploaded_file i) as [file |] eqn:Hfile.
  2: { right. rewrite upload_skip by done. simpl. repeat split; auto. }
  destruct (read_csv file) as [df | e] eqn:Hread.
  2: { right. rewrite (upload_run_unreadable i file e) by done. simpl.
       repeat split; auto. right. exists file. split; [done |]. left. eauto. }
  destruct (decide (Forall (λ c, c ∈ columns df) ["Date"; "Category"; "Amount"]))
    as [Hcols | Hcols].
  2: { right. destruct (upload_run_missing i file df w Hfile Hread Hcols)
         as (Hr & Hdf & Hb & Hp & Hh). repeat split; auto. }
  destruct (decide ("Description" ∈ columns df)) as [Hdesc | Hdesc].
  - left. exists file, df.
    assert (Hall : Forall (λ c, c ∈ columns df)
                     ["Date"; "Category"; "Amount"; "Description"]).
    { apply Forall_cons in Hcols as [? [? [? _]%Forall_cons]%Forall_cons].
      by repeat constructor. }
    destruct (upload_run i file df w Hfile Hread Hall Hwf) as (Hr & Hl & Hwf' & Hb & _).
    done.
  - right. destruct (upload_run_no_description i file df w Hfile Hread Hcols Hdesc)
      as (Hr & Hdf & Hb & Hp & Hh).
    repeat split; auto. right. exists file. split; [done |]. right. eauto.
Qed.

Lemma upload_keeps i : preserves keeps_ok (upload_handler i).
Proof.
  intros w Hok.
  destruct (upload_cases i w (proj1 Hok))
    as [(file & df & _ & _ & _ & _ & Hl & Hwf & _) | (Hdf & _ & _ & Hh & _)].
  - by eapply session_ok_concat.
  - by apply (session_ok_frames w).
Qed.

Lemma dashboard_keeps : preserves keeps_ok dashboard.
Proof.
  intros w Hok. destruct (preserves_dashboard_frames w) as [Hdf Hh].
  by apply (session_ok_frames w).
Qed.

Lemma script_keeps i : preserves keeps_ok (script i).
Proof.
  unfold script. repeat (apply preserves_bind; [apply _ | | intros _]).
  - apply add_expense_keeps.
  - apply budget_keeps.
  - apply upload_keeps.
  - apply dashboard_keeps.
Qed.

Lemma session_ok_initial : session_ok initial_world.
Proof. vm_decide. Qed.

Lemma runs_ok inputs : session_ok (runs inputs).
Proof.
  unfold runs. induction inputs as [| i inputs IH] using rev_ind.
  - apply session_ok_initial.
  - rewrite foldl_app. simpl. by apply script_keeps, session_ok_start_run.
Qed.

(** A run whose "Add Expense" and "Set Budget" do nothing goes to the
    upload. *)
Lemma script_from_upload i w :
  (add_expense i = true → ¬ (0 < amount i)%Qc) → set_budget i = false →
  script i w
  = (upload_handler i;; dashboard)
      {| heap := heap w; session_df := session_df w;
         session_budget := session_budget w;
         page := page w ++ (if add_expense i
                            then [SidebarError "Amount must be > 0"] else []) |}.
Proof.
  intros Ha Hb. unfold script.
  destruct (add_expense_cases i w) as [[Ha' Hamt] | (_ & Hr & Hh & Hdf & Hbud & Hp)];
    [by destruct (Ha Ha') |].
  rewrite (bind_returns _ _ _ _ Hr).
  rewrite (bind_returns _ _ _ ()) by (rewrite budget_cases, Hb; done).
  rewrite budget_cases, Hb. simpl. f_equal.
  destruct (add_expense_handler i w).2; simpl in *. by subst.
Qed.

End runs.

(** ** Adding an expense *)

Lemma session_ok_subseteq w : session_ok w → ledger_columns ⊆ columns (ledger w).
Proof. intros [_ Hcols] c Hc. exact (proj1 (Forall_forall _ _) Hcols c Hc). Qed.

Lemma script_add_expense `{Pandas} i w :
  add_expense i = true → (0 < amount i)%Qc → wf w →
  script i w = (Err RerunException, (add_expense_handler i w).2).
Proof.
  intros Ha Hamt Hwf. destruct (add_expense_run i w Ha Hamt Hwf) as (Hr & _).
  unfold script. by rewrite (bind_raises _ _ _ _ Hr).
Qed.

(** X1 (lines 29-39): "Add Expense" with an amount above 0, in a session
    in a good state.  The run ends in a rerun with the notice "Added!" as
    the only addition to the page; the budget is as it was; the ledger has
    the columns it had, its records as they were, and after them one new
    record: the date of the form as a timestamp, the category, the amount,
    and the description or 'N/A' for an empty one. *)
Theorem add_expense_appends `{Pandas} i w :
  add_expense i = true → (0 < amount i)%Qc → session_ok w →
  let rw := script i w in
  rw.1 = Err RerunException
  ∧ page rw.2 = page w ++ [SidebarSuccess "Added!"]
  ∧ session_budget rw.2 = session_budget w
  ∧ columns (ledger rw.2) = columns (ledger w)
  ∧ records (ledger rw.2)
    = records (ledger w) ++ ((λ r, row_get r <$> columns (ledger w)) <$> rows (new_row i))
  ∧ (columns (ledger w) = ledger_columns →
     records (ledger rw.2)
     = records (ledger w)
       ++ [[Time (to_datetime_date (expense_date i)); Str (category i);
            Num (amount i);
            Str (if decide (description i = "") then "N/A" else description i)]]).
Proof.
  intros Ha Hamt Hok rw. subst rw.
  rewrite script_add_expense by (done || apply Hok).
  destruct (add_expense_run i w Ha Hamt (proj1 Hok)) as (_ & Hl & _ & Hb & Hp & _).
  assert (Hsub : columns (new_row i) ⊆ columns (ledger w))
    by by apply session_ok_subseteq.
  cbn [fst snd]. rewrite Hl.
  split; [done |]. split; [done |]. split; [done |].
  split; [by apply columns_concat_subseteq |].
  split; [by apply records_concat |].
  intros Hcols. rewrite records_concat by done. by rewrite Hcols.
Qed.

Lemma add_expense_appends_witness :
  let i := add {| year := 2024; month := 2; day := 1 |} "Transport" (Q2Qc 20) "" in
  let rw := script i january in
  session_ok january ∧ (0 < amount i)%Qc
  ∧ rw.1 = Err RerunException
  ∧ records (ledger rw.2)
    = records (ledger january)
      ++ [[day_2024 2 1; Str "Transport"; Num (Q2Qc 20); Str "N/A"]].
Proof.
  intros i rw.
  assert (Hok : session_ok january) by vm_decide.
  assert (Hamt : (0 < amount i)%Qc) by vm_decide.
  assert (Hcols : columns (ledger january) = ledger_columns) by vm_decide.
  split; [exact Hok |]. split; [exact Hamt |].
  destruct (add_expense_appends i january eq_refl Hamt Hok)
    as (Hr & _ & _ & _ & _ & Hrec).
  split; [exact Hr |]. exact (Hrec Hcols).
Defined.

Lemma script_no_add `{Pandas} i w :
  (add_expense i = true → ¬ (0 < amount i)%Qc) → set_budget i = false →
  uploaded_file i = None →
  script i w
  = dashboard {| heap := heap w; session_df := session_df w;
                 session_budget := session_budget w;
                 page := page w ++ (if add_expense i
                                    then [SidebarError "Amount must be > 0"] else []) |}.
Proof.
  intros Ha Hb Hu. rewrite script_from_upload by done.
  rewrite (bind_returns _ _ _ ()) by by rewrite upload_skip.
  by rewrite upload_skip.
Qed.

(** X2 (lines 29-30, 40-41): "Add Expense" with an amount that is not
    above 0 records nothing.  With no other button pressed and no file
    chosen, the page gets the error "Amount must be > 0" and the script
    goes on to the dashboard, with no rerun: the ledger and the budget are
    as they were, and the error is the only notice of the sidebar on the
    page. *)
Theorem add_expense_rejected `{Pandas} i w :
  add_expense i = true → ¬ (0 < amount i)%Qc →
  set_budget i = false → uploaded_file i = None → session_ok w →
  let rw := script i w in
  rw.1 ≠ Err RerunException
  ∧ ledger rw.2 = ledger w
  ∧ session_budget rw.2 = session_budget w
  ∧ ∃ view, page rw.2 = page w ++ SidebarError "Amount must be > 0" :: view
          ∧ Forall (λ e, ¬ is_notice e) view.
Proof.
  intros Ha Hamt Hb Hu Hok rw. subst rw.
  rewrite script_no_add by done. rewrite Ha.
  set (w0 := {| heap := heap w |}).
  assert (Hok0 : session_ok w0) by exact Hok.
  destruct (dashboard_run w0 Hok0) as (Hr & view & Hp & Hview & _).
  destruct (preserves_dashboard_frames w0) as [Hdf Hh].
  destruct (wf_frames w0 _ (proj1 Hok0) Hdf Hh) as [_ Hl].
  split; [by rewrite Hr |]. split; [exact Hl |].
  split; [apply (preserves_dashboard_budget w0) |].
  exists view. split; [| done]. rewrite Hp. simpl. by rewrite <- app_assoc.
Qed.

Lemma add_expense_rejected_witness :
  let i := add {| year := 2024; month := 2; day := 1 |} "Food" 0%Qc "free" in
  let rw := script i january in
  session_ok january ∧ ¬ (0 < amount i)%Qc
  ∧ rw.1 ≠ Err RerunException ∧ ledger rw.2 = ledger january
  ∧ ∃ view, page rw.2 = page january ++ SidebarError "Amount must be > 0" :: view.
Proof.
  intros i rw.
  assert (Hok : session_ok january) by vm_decide.
  assert (Hamt : ¬ (0 < amount i)%Qc) by vm_decide.
  split; [exact Hok |]. split; [exact Hamt |].
  destruct (add_expense_rejected i january eq_refl Hamt eq_refl eq_refl Hok)
    as (Hr & Hl & _ & view & Hp & _).
  split; [exact Hr |]. split; [exact Hl |]. exists view. exact Hp.
Defined.

(** ** Setting the budget *)

(** X3 (lines 45-48): "Set Budget" stores the number of the input as it
    is, of either sign, and ends the run in a rerun: a file chosen in the
    uploader is not read in this run, nothing is put on the page, the
    ledger and every frame are as they were.  A budget that is not above 0
    switches the alert off, whatever the ledger. *)
Theorem set_budget_stores `{Pandas} i w :
  set_budget i = true → add_expense i = false →
  let rw := script i w in
  rw.1 = Err RerunException
  ∧ session_budget rw.2 = budget_input i
  ∧ session_df rw.2 = session_df w ∧ heap rw.2 = heap w ∧ page rw.2 = page w
  ∧ (¬ (0 < budget_input i)%Qc → ∀ df, budget_alert (session_budget rw.2) df = Ok None).
Proof.
  intros Hb Ha rw. subst rw. unfold script.
  rewrite (bind_returns _ _ _ ()) by by rewrite add_expense_skip.
  rewrite (bind_raises _ _ _ RerunException) by by rewrite budget_cases, Hb.
  rewrite budget_cases, Hb, add_expense_skip by done. simpl.
  repeat (split; [done |]). intros Hneg df. unfold budget_alert.
  by rewrite decide_False.
Qed.

Lemma set_budget_stores_witness :
  let i := {| expense_date := expense_date idle; category := "Food"; amount := 0%Qc;
              description := ""; add_expense := false;
              budget_input := Q2Qc (-10); set_budget := true;
              uploaded_file := Some refund_csv |} in
  let rw := script i january in
  rw.1 = Err RerunException ∧ session_budget rw.2 = Q2Qc (-10)
  ∧ ledger rw.2 = ledger january.
Proof.
  intros i rw.
  destruct (set_budget_stores i january eq_refl eq_refl) as (Hr & Hb & Hdf & Hh & _).
  split; [exact Hr |]. split; [exact Hb |].
  unfold ledger. subst rw. cbv zeta in Hdf, Hh. rewrite Hdf, Hh. reflexivity.
Defined.

(** ** Uploading a file *)

Lemma script_upload_raises `{Pandas} i w e :
  add_expense i = false → set_budget i = false →
  (upload_handler i w).1 = Err e →
  script i w = (Err e, (upload_handler i w).2).
Proof.
  intros Ha Hb Hr. rewrite script_from_upload by (done || by rewrite Ha).
  rewrite Ha, app_nil_r.
  replace {| heap := heap w; session_df := session_df w;
             session_budget := session_budget w; page := page w |} with w
    by by destruct w.
  by rewrite (bind_raises _ _ _ _ Hr).
Qed.

Lemma imported_length `{Pandas} df : (length (rows (imported_of df)) ≤ length (rows df))%nat.
Proof.
  unfold imported_of. cbn [rows]. rewrite length_fmap.
  etransitivity; [apply length_filter |].
  rewrite <- (Forall2_length _ _ _ (parsed_rows_spec df)). done.
Qed.

(** X4 (lines 52-62): the upload of a file that has the columns Date,
    Category, Amount and Description.  The run ends in a rerun; the ledger
    is the concatenation of the ledger as it was and the imported records,
    which are the records of the file with no missing value once dates and
    amounts are parsed, with their categories normalized ([fillna] changes
    none of them); the notice counts exactly the records appended, which
    are at most those of the file; the budget is as it was. *)
Theorem upload_appends `{Pandas} i file df w :
  add_expense i = false → set_budget i = false →
  uploaded_file i = Some file → read_csv file = Ok df →
  Forall (λ c, c ∈ columns df) ["Date"; "Category"; "Amount"; "Description"] →
  wf w →
  let rw := script i w in
  let n := length (rows (imported_of df)) in
  rw.1 = Err RerunException
  ∧ ledger rw.2 = Frame.concat (ledger w) (imported_of df)
  ∧ length (rows (ledger rw.2)) = (length (rows (ledger w)) + n)%nat
  ∧ (n ≤ length (rows df))%nat
  ∧ page rw.2 = page w ++ [SidebarSuccess ("Uploaded " +:+ pretty n +:+ " rows!")]
  ∧ session_budget rw.2 = session_budget w.
Proof.
  intros Ha Hb Hfile Hread Hcols Hwf rw n. subst rw n.
  destruct (upload_run i file df w Hfile Hread Hcols Hwf) as (Hr & Hl & _ & Hbud & Hp & _).
  rewrite (script_upload_raises i w _ Ha Hb Hr). cbn [fst snd].
  split; [done |]. split; [done |]. split; [by rewrite Hl, length_concat |].
  split; [apply imported_length |]. done.
Qed.

Lemma upload_appends_witness :
  let i := upload refund_csv in
  let df := csv_frame refund_csv in
  let rw := script i january in
  read_csv refund_csv = Ok df
  ∧ Forall (λ c, c ∈ columns df) ["Date"; "Category"; "Amount"; "Description"]
  ∧ wf january
  ∧ rw.1 = Err RerunException
  ∧ length (rows (ledger rw.2)) = 3%nat
  ∧ page rw.2 = page january ++ [SidebarSuccess "Uploaded 1 rows!"].
Proof.
  intros i df rw.
  assert (Hread : read_csv refund_csv = Ok df) by vm_decide.
  assert (Hcols : Forall (λ c, c ∈ columns df)
                    ["Date"; "Category"; "Amount"; "Description"]) by vm_decide.
  assert (Hwf : wf january) by vm_decide.
  assert (Hn : length (rows (imported_of df)) = 1%nat) by vm_decide.
  assert (Hl : length (rows (ledger january)) = 2%nat) by vm_decide.
  split; [exact Hread |]. split; [exact Hcols |]. split; [exact Hwf |].
  destruct (upload_appends i refund_csv df january eq_refl eq_refl eq_refl Hread
              Hcols Hwf) as (Hr & _ & Hlen & _ & Hp & _).
  split; [exact Hr |]. split.
  - rewrite Hn, Hl in Hlen. exact Hlen.
  - rewrite Hn in Hp. exact Hp.
Defined.

(** X5 (lines 55-60): which records an upload appends.  They come from
    records of the file, in the order of the file, and each has the columns
    of the file with no missing value, a timestamp as its date, a number as
    its amount, a category of the fixed set (the one of the file
    normalized) and every other cell, the description among them, as the
    file has it: a record with a blank cell is not imported, and 'N/A' is
    never filled in. *)
Theorem upload_imports `{Pandas} i file df w :
  add_expense i = false → set_budget i = false →
  uploaded_file i = Some file → read_csv file = Ok df →
  Forall (λ c, c ∈ columns df) ["Date"; "Category"; "Amount"; "Description"] →
  wf w →
  ∃ imp kept,
    ledger (script i w).2 = Frame.concat (ledger w) imp
    ∧ columns imp = columns df
    ∧ sublist kept (rows df)
    ∧ Forall2 (kept_from df) kept (rows imp)
    ∧ Forall (λ r, valid_row (columns df) r ∧ is_category (row_get r "Category"))
        (rows imp).
Proof.
  intros Ha Hb Hfile Hread Hcols Hwf.
  destruct (upload_run i file df w Hfile Hread Hcols Hwf) as (Hr & Hl & _).
  destruct (parsed_kept df) as (kept & Hsub & HF).
  exists (imported_of df), kept.
  rewrite (script_upload_raises i w _ Ha Hb Hr). cbn [fst snd].
  split; [done |]. split; [done |]. split; [done |]. split.
  - unfold imported_of. cbn [rows]. apply Forall2_fmap_r.
    eapply Forall2_impl; [exact HF |].
    intros r0 r2 [(d & a & _ & _ & ->) Hna].
    apply (kept_from_parsed df r0 d a
             (λ r, <["Category" := categorize (row_get r "Category")]> r)); [done | |].
    + intros r. by rewrite row_get_insert.
    + intros r c Hc. rewrite lookup_insert_ne; [done |]. intros <-. apply Hc. set_solver.
  - unfold imported_of. cbn [rows]. apply Forall_fmap.
    apply Forall_cons in Hcols as [Hdate [_ [Hamount _]%Forall_cons]%Forall_cons].
    eapply Forall_impl; [exact (parsed_filter_valid df Hdate Hamount) |].
    intros r Hvalid. simpl. split.
    + apply valid_row_insert_category; [apply categorize_notna | done].
    + rewrite row_get_insert. apply categorize_is_category.
Qed.

Lemma upload_imports_witness :
  let i := upload mixed_csv in
  let df := csv_frame mixed_csv in
  read_csv mixed_csv = Ok df
  ∧ Forall (λ c, c ∈ columns df) ["Date"; "Category"; "Amount"; "Description"]
  ∧ wf january
  ∧ length (rows df) = 4%nat
  ∧ records (ledger (script i january).2)
    = records (ledger january)
      ++ [[day_2024 3 1; Str "Food"; Num (Q2Qc (155 # 10)); Str "lunch"];
          [day_2024 3 4; Str "Other"; Num (Q2Qc 2); Str "bar"]]
  ∧ ∃ imp kept,
      ledger (script i january).2 = Frame.concat (ledger january) imp
      ∧ columns imp = columns df
      ∧ sublist kept (rows df)
      ∧ Forall2 (kept_from df) kept (rows imp)
      ∧ Forall (λ r, valid_row (columns df) r ∧ is_category (row_get r "Category"))
          (rows imp).
Proof.
  intros i df.
  assert (Hread : read_csv mixed_csv = Ok df) by vm_decide.
  assert (Hcols : Forall (λ c, c ∈ columns df)
                    ["Date"; "Category"; "Amount"; "Description"]) by vm_decide.
  assert (Hwf : wf january) by vm_decide.
  split; [exact Hread |]. split; [exact Hcols |]. split; [exact Hwf |].
  split; [vm_decide |]. split; [vm_decide |].
  exact (upload_imports i mixed_csv df january eq_refl eq_refl eq_refl
           Hread Hcols Hwf).
Defined.

(** X6 (lines 54-59): the upload of any file that has Date, Category and
    Amount but no Description column.  The run ends with the
    AttributeError of line 59, before anything is put on the page: no
    notice, no dashboard; the ledger and the budget are as they were. *)
Theorem upload_lacking_description `{Pandas} i file df w :
  add_expense i = false → set_budget i = false →
  uploaded_file i = Some file → read_csv file = Ok df →
  Forall (λ c, c ∈ columns df) ["Date"; "Category"; "Amount"] →
  "Description" ∉ columns df → wf w →
  let rw := script i w in
  rw.1 = Err (AttributeError "'str' object has no attribute 'fillna'")
  ∧ ledger rw.2 = ledger w
  ∧ session_budget rw.2 = session_budget w
  ∧ page rw.2 = page w.
Proof.
  intros Ha Hb Hfile Hread Hcols Hdesc Hwf rw. subst rw.
  destruct (upload_run_no_description i file df w Hfile Hread Hcols Hdesc)
    as (Hr & Hdf & Hbud & Hp & Hh).
  rewrite (script_upload_raises i w _ Ha Hb Hr). cbn [fst snd].
  destruct (wf_frames w _ Hwf Hdf Hh) as [_ Hl]. done.
Qed.

Lemma upload_lacking_description_witness :
  let i := upload march_csv in
  let df := csv_frame march_csv in
  let rw := script i january in
  read_csv march_csv = Ok df
  ∧ Forall (λ c, c ∈ columns df) ["Date"; "Category"; "Amount"]
  ∧ ("Description" ∉ columns df) ∧ wf january
  ∧ rw.1 = Err (AttributeError "'str' object has no attribute 'fillna'")
  ∧ ledger rw.2 = ledger january
  ∧ session_budget rw.2 = session_budget january
  ∧ page rw.2 = page january.
Proof.
  intros i df rw.
  assert (Hread : read_csv march_csv = Ok df) by vm_decide.
  assert (Hcols : Forall (λ c, c ∈ columns df) ["Date"; "Category"; "Amount"])
    by vm_decide.
  assert (Hdesc : "Description" ∉ columns df) by vm_decide.
  assert (Hwf : wf january) by vm_decide.
  split; [exact Hread |]. split; [exact Hcols |]. split; [exact Hdesc |].
  split; [exact Hwf |].
  exact (upload_lacking_description i march_csv df january eq_refl eq_refl eq_refl
           Hread Hcols Hdesc Hwf).
Defined.

(** X7 (line 54): the upload of any file that lacks one of Date, Category
    and Amount is skipped without a word.  The handler returns with
    nothing put on the page, and the script goes on to the dashboard, with
    no rerun; the ledger and the budget are as they were, and the page
    gets no notice or error of the sidebar. *)
Theorem upload_missing_column_skipped `{Pandas} i file df w :
  add_expense i = false → set_budget i = false →
  uploaded_file i = Some file → read_csv file = Ok df →
  ¬ Forall (λ c, c ∈ columns df) ["Date"; "Category"; "Amount"] →
  session_ok w →
  let ru := upload_handler i w in
  let rw := script i w in
  ru.1 = Ok () ∧ page ru.2 = page w
  ∧ rw = dashboard ru.2
  ∧ rw.1 ≠ Err RerunException
  ∧ ledger rw.2 = ledger w
  ∧ session_budget rw.2 = session_budget w
  ∧ ∃ view, page rw.2 = page w ++ view ∧ Forall (λ e, ¬ is_notice e) view.
Proof.
  intros Ha Hb Hfile Hread Hcols Hok ru rw. subst ru rw.
  destruct (upload_run_missing i file df w Hfile Hread Hcols)
    as (Hr & Hdf & Hbud & Hp & Hh).
  rewrite script_from_upload by (done || by rewrite Ha). rewrite Ha, app_nil_r.
  replace {| heap := heap w; session_df := session_df w;
             session_budget := session_budget w; page := page w |} with w
    by by destruct w.
  rewrite (bind_returns _ _ _ _ Hr).
  set (w1 := (upload_handler i w).2) in *.
  assert (Hok1 : session_ok w1) by by apply (session_ok_frames w).
  destruct (wf_frames w w1 (proj1 Hok) Hdf Hh) as [Hwf1 Hl1].
  destruct (dashboard_run w1 Hok1) as (Hr2 & view & Hp2 & Hview & _).
  destruct (preserves_dashboard_frames w1) as [Hdf2 Hh2].
  destruct (wf_frames w1 _ Hwf1 Hdf2 Hh2) as [_ Hl2].
  assert (Hb2 := preserves_dashboard_budget w1). unfold same_budget in Hb2.
  split; [done |]. split; [done |]. split; [done |]. split; [by rewrite Hr2 |].
  split; [by rewrite Hl2 |]. split; [by rewrite Hb2 |].
  exists view. by rewrite Hp2, Hp.
Qed.

Lemma upload_missing_column_skipped_witness :
  let i := upload no_amount_csv in
  let df := csv_frame no_amount_csv in
  let rw := script i january in
  read_csv no_amount_csv = Ok df
  ∧ ¬ Forall (λ c, c ∈ columns df) ["Date"; "Category"; "Amount"]
  ∧ session_ok january
  ∧ (upload_handler i january).1 = Ok ()
  ∧ ledger rw.2 = ledger january
  ∧ ∃ view, page rw.2 = page january ++ view ∧ Forall (λ e, ¬ is_notice e) view.
Proof.
  intros i df rw.
  assert (Hread : read_csv no_amount_csv = Ok df) by vm_decide.
  assert (Hcols : ¬ Forall (λ c, c ∈ columns df) ["Date"; "Category"; "Amount"])
    by vm_decide.
  assert (Hok : session_ok january) by vm_decide.
  split; [exact Hread |]. split; [exact Hcols |]. split; [exact Hok |].
  destruct (upload_missing_column_skipped i no_amount_csv df january eq_refl eq_refl
              eq_refl Hread Hcols Hok) as (Hr & _ & _ & _ & Hl & _ & Hview).
  split; [exact Hr |]. split; [exact Hl | exact Hview].
Defined.

(** X8 (lines 52-62): an upload is repeated as long as the file is
    chosen.  The handler keeps no note of what it has imported: each run
    whose inputs hold the file (and no pressed button) appends the records
    of the file once more and ends in a rerun, so after [k] such runs the
    ledger has grown by [k] times the number of imported records. *)
Theorem upload_repeats `{Pandas} i file df w k :
  add_expense i = false → set_budget i = false →
  uploaded_file i = Some file → read_csv file = Ok df →
  Forall (λ c, c ∈ columns df) ["Date"; "Category"; "Amount"; "Description"] →
  wf w →
  let w' := again i k w in
  wf w'
  ∧ length (rows (ledger w'))
    = (length (rows (ledger w)) + k * length (rows (imported_of df)))%nat
  ∧ (script i (start_run w')).1 = Err RerunException.
Proof.
  intros Ha Hb Hfile Hread Hcols Hwf w'. subst w'.
  assert (Hrun : ∀ w0, wf w0 →
            (script i (start_run w0)).1 = Err RerunException
            ∧ wf (script i (start_run w0)).2
            ∧ length (rows (ledger (script i (start_run w0)).2))
              = (length (rows (ledger w0)) + length (rows (imported_of df)))%nat).
  { intros w0 Hwf0.
    destruct (upload_run i file df (start_run w0) Hfile Hread Hcols Hwf0)
      as (Hr & Hl & Hwf' & _).
    rewrite (script_upload_raises i _ _ Ha Hb Hr). cbn [fst snd].
    split; [done |]. split; [done |]. by rewrite Hl, length_concat. }
  assert (Hk : wf (again i k w)
               ∧ length (rows (ledger (again i k w)))
                 = (length (rows (ledger w)) + k * length (rows (imported_of df)))%nat).
  { induction k as [| k [IHwf IHlen]]; [by rewrite Nat.add_0_r |].
    unfold again in *. rewrite Nat.iter_succ.
    destruct (Hrun _ IHwf) as (_ & Hwf' & Hlen'). split; [done |].
    rewrite Hlen', IHlen. lia. }
  destruct Hk as [Hwfk Hlenk]. split; [done |]. split; [done |].
  by apply Hrun.
Qed.

Lemma upload_repeats_witness :
  let i := upload refund_csv in
  let df := csv_frame refund_csv in
  let w' := again i 2 january in
  read_csv refund_csv = Ok df
  ∧ Forall (λ c, c ∈ columns df) ["Date"; "Category"; "Amount"; "Description"]
  ∧ wf january
  ∧ length (rows (ledger w')) = 4%nat
  ∧ (script i (start_run w')).1 = Err RerunException.
Proof.
  intros i df w'.
  assert (Hread : read_csv refund_csv = Ok df) by vm_decide.
  assert (Hcols : Forall (λ c, c ∈ columns df)
                    ["Date"; "Category"; "Amount"; "Description"]) by vm_decide.
  assert (Hwf : wf january) by vm_decide.
  assert (Hn : length (rows (imported_of df)) = 1%nat) by vm_decide.
  assert (Hl : length (rows (ledger january)) = 2%nat) by vm_decide.
  split; [exact Hread |]. split; [exact Hcols |]. split; [exact Hwf |].
  destruct (upload_repeats i refund_csv df january 2 eq_refl eq_refl eq_refl Hread
              Hcols Hwf) as (_ & Hlen & Hr).
  split; [| exact Hr]. rewrite Hn, Hl in Hlen. exact Hlen.
Defined.

(** ** Runs and sessions *)

Lemma run_bind_assoc {A B C} (m : Run A) (f : A → Run B) (g : B → Run C) w :
  ((m ≫= f) ≫= g) w = (m ≫= (λ a, f a ≫= g)) w.
Proof. unfold mbind, Run_bind. by destruct (m w) as [[a | e] w']. Qed.

Lemma run_bind_ext {A B} (m : Run A) (f g : A → Run B) w :
  (∀ a w', f a w' = g a w') → (m ≫= f) w = (m ≫= g) w.
Proof. intros Hfg. unfold mbind, Run_bind. by destruct (m w) as [[a | e] w']. Qed.

(** The script is the sidebar, then the dashboard. *)
Lemma script_sidebar `{Pandas} i w : script i w = (sidebar i;; dashboard) w.
Proof.
  unfold script, sidebar. rewrite run_bind_assoc. apply run_bind_ext.
  intros _ w'. by rewrite run_bind_assoc.
Qed.

Lemma result_world {A} (rw : Result A * World) e : rw.1 = Err e → (Err e, rw.2) = rw.
Proof. destruct rw as [r w]. simpl. by intros ->. Qed.

(** What the handlers of the sidebar come to, in a session in a good
    state. *)
Lemma sidebar_cases `{Pandas} i w :
  session_ok w →
  let rs := sidebar i w in
  rs.1 = Err RerunException
  ∨ (session_df rs.2 = session_df w
     ∧ (∀ k, k ∈ dom (heap w) → heap rs.2 !! k = heap w !! k)
     ∧ session_budget rs.2 = session_budget w
     ∧ (rs.1 = Ok ()
        ∨ ∃ file, uploaded_file i = Some file
            ∧ ((∃ e, read_csv file = Err e ∧ rs.1 = Err e)
               ∨ (∃ df, read_csv file = Ok df ∧ ("Description" ∉ columns df)
                    ∧ rs.1 = Err (AttributeError
                                    "'str' object has no attribute 'fillna'"))))).
Proof.
  intros Hok rs. subst rs. unfold sidebar.
  destruct (add_expense_cases i w) as [[Ha Hamt] | (Ha & Hr & Hh & Hdf & Hbud & Hp)].
  { left. destruct (add_expense_run i w Ha Hamt (proj1 Hok)) as (Hr & _).
    by rewrite (bind_raises _ _ _ _ Hr). }
  rewrite (bind_returns _ _ _ _ Hr).
  set (w0 := (add_expense_handler i w).2) in *.
  assert (Hok0 : session_ok w0).
  { apply (session_ok_frames w); [done.. |]. intros k _. by rewrite Hh. }
  destruct (set_budget i) eqn:Hb.
  { left. rewrite (bind_raises _ _ _ RerunException); [done |].
    by rewrite budget_cases, Hb. }
  rewrite (bind_returns _ _ _ ()) by (rewrite budget_cases, Hb; done).
  rewrite budget_cases, Hb. cbn [snd].
  destruct (upload_cases i w0 (proj1 Hok0))
    as [(file & df & _ & _ & _ & Hr1 & _) | (Hdf1 & Hb1 & Hp1 & Hh1 & Hr1)];
    [by left | right].
  split; [by rewrite Hdf1 |]. split; [| split; [by rewrite Hb1 | done]].
  intros k Hk. rewrite Hh1; [by rewrite Hh |]. apply elem_of_dom.
  rewrite Hh. by apply elem_of_dom.
Qed.

(** X9 (lines 29-62, 77): how a run can end, in a session in a good
    state.  Either the sidebar ends it in a rerun; or the ledger and the
    budget are at the end of the run as they were, and then either the
    handlers of the sidebar returned and the run went on with the
    dashboard, or the upload raised and ended the run: with the error of
    [read_csv], or with the AttributeError of a file without a Description
    column.  So every change of the session is followed by a rerun. *)
Theorem run_outcomes `{Pandas} i w :
  session_ok w →
  let rs := sidebar i w in
  let rw := script i w in
  (rs.1 = Err RerunException ∧ rw = rs)
  ∨ (ledger rw.2 = ledger w
     ∧ session_budget rw.2 = session_budget w
     ∧ ((rs.1 = Ok () ∧ rw = dashboard rs.2)
        ∨ ∃ file, uploaded_file i = Some file ∧ rw = rs
            ∧ ((∃ e, read_csv file = Err e ∧ rs.1 = Err e)
               ∨ (∃ df, read_csv file = Ok df ∧ ("Description" ∉ columns df)
                    ∧ rs.1 = Err (AttributeError
                                    "'str' object has no attribute 'fillna'"))))).
Proof.
  intros Hok rs rw. subst rs rw. rewrite script_sidebar.
  destruct (sidebar_cases i w Hok) as [Hr | (Hdf & Hh & Hb & Hr)].
  { left. split; [done |]. rewrite (bind_raises _ _ _ _ Hr). by apply result_world. }
  right. set (rs := sidebar i w) in *.
  destruct (wf_frames w rs.2 (proj1 Hok) Hdf Hh) as [Hwf1 Hl1].
  destruct Hr as [Hr | (file & Hfile & Hr)].
  - rewrite (bind_returns _ _ _ _ Hr). fold rs.
    destruct (preserves_dashboard_frames rs.2) as [Hdf2 Hh2].
    destruct (wf_frames rs.2 _ Hwf1 Hdf2 Hh2) as [_ Hl2].
    assert (Hb2 := preserves_dashboard_budget rs.2). unfold same_budget in Hb2.
    split; [by rewrite Hl2 |]. split; [by rewrite Hb2 |]. by left.
  - assert (He : ∃ e, rs.1 = Err e)
      by (destruct Hr as [(e & _ & ?) | (? & _ & _ & ?)]; eauto).
    destruct He as [e He]. rewrite (bind_raises _ _ _ _ He). fold rs.
    rewrite (result_world rs e He).
    split; [done |]. split; [done |]. right. exists file. done.
Qed.

Lemma run_outcomes_witness :
  let i := upload march_csv in
  let rs := sidebar i january in
  let rw := script i january in
  session_ok january
  ∧ ((rs.1 = Err RerunException ∧ rw = rs)
     ∨ (ledger rw.2 = ledger january
        ∧ session_budget rw.2 = session_budget january
        ∧ ((rs.1 = Ok () ∧ rw = dashboard rs.2)
           ∨ ∃ file, uploaded_file i = Some file ∧ rw = rs
               ∧ ((∃ e, read_csv file = Err e ∧ rs.1 = Err e)
                  ∨ (∃ df, read_csv file = Ok df ∧ ("Description" ∉ columns df)
                       ∧ rs.1 = Err (AttributeError
                                       "'str' object has no attribute 'fillna'")))))).
Proof.
  intros i rs rw.
  assert (Hok : session_ok january) by vm_decide.
  split; [exact Hok |].
  exact (run_outcomes i january Hok).
Defined.

(** X10 (lines 12-15 with 29-62): whatever the inputs of the runs of a
    session, the session ledger exists and keeps the four columns of a new
    session (an upload can only add columns): each of them can be read,
    with one cell for each record, so no run raises a KeyError for one of
    them. *)
Theorem session_stays_ok `{Pandas} inputs :
  let w := runs inputs in
  session_ok w
  ∧ ∀ c, c ∈ ledger_columns →
      ∃ s, Frame.getitem (ledger w) c = Ok s ∧ length s = length (rows (ledger w)).
Proof.
  intros w. assert (Hok : session_ok w) by apply runs_ok.
  split; [done |]. intros c Hc. eexists. split.
  - apply getitem_elem. destruct Hok as [_ Hcols].
    exact (proj1 (Forall_forall _ _) Hcols c Hc).
  - by rewrite length_fmap.
Qed.

(** ** What cleaning keeps *)

(** X11 (lines 66-73): cleaning keeps records of the ledger in the order
    of the ledger, and adds none.  A record is kept only if it has no
    missing value in any column other than its date and amount; what is
    kept of it is its category, normalized, and every other column apart
    from the date, the amount and the month, as it was. *)
Theorem clean_keeps_order `{Pandas} raw dfc :
  clean raw = Ok dfc →
  ∃ kept, sublist kept (rows raw)
        ∧ Forall2 (kept_from raw) kept (rows dfc)
        ∧ (length (rows dfc) ≤ length (rows raw))%nat.
Proof.
  intros (kept & Hsub & HF)%clean_kept. exists kept.
  split; [done |]. split; [done |].
  rewrite <- (Forall2_length _ _ _ HF). by apply sublist_length.
Qed.

Lemma clean_keeps_order_witness :
  let raw := ledger (after (upload refund_csv) january) in
  let dfc := cleaned_of raw in
  clean raw = Ok dfc
  ∧ ∃ kept, sublist kept (rows raw)
          ∧ Forall2 (kept_from raw) kept (rows dfc)
          ∧ (length (rows dfc) ≤ length (rows raw))%nat.
Proof.
  intros raw dfc.
  assert (E : clean raw = Ok dfc) by vm_decide.
  split; [exact E |]. exact (clean_keeps_order raw dfc E).
Defined.

(** X12 (lines 37, 60, 70): a column that only one side of a
    concatenation has costs the other side its records.  When the ledger
    is the concatenation of [a] and [b] and a column other than Date and
    Amount is missing in all records of [a], the cleaned ledger has at most
    as many records as [b]; and the same with [a] and [b] exchanged.  So
    the import of a file with a column of its own hides every earlier
    record from the dashboard, and every record the form adds later. *)
Theorem concat_missing_column_dropped `{Pandas} a b c dfc :
  c ≠ "Date" → c ≠ "Amount" → c ∈ columns (Frame.concat a b) →
  clean (Frame.concat a b) = Ok dfc →
  (Forall (λ r, row_get r c = NA) (rows a) →
   (length (rows dfc) ≤ length (rows b))%nat)
  ∧ (Forall (λ r, row_get r c = NA) (rows b) →
     (length (rows dfc) ≤ length (rows a))%nat).
Proof.
  intros Hd Ha Hc (kept & Hsub & HF)%clean_kept.
  rewrite <- (Forall2_length _ _ _ HF).
  assert (HP : Forall (λ r, row_get r c ≠ NA) kept).
  { apply Forall_forall. intros r0 [i Hi]%list_elem_of_lookup.
    destruct (Forall2_lookup_l _ _ _ _ _ HF Hi) as (r & _ & Hk & _). by apply Hk. }
  assert (Hna : ∀ l, Forall (λ r, row_get r c = NA) l →
            Forall (λ r, ¬ row_get r c ≠ NA)
              (reindex (columns (Frame.concat a b)) <$> l)).
  { intros l Hl. apply Forall_fmap. eapply Forall_impl; [exact Hl |].
    intros r Hr; simpl. rewrite row_get_reindex, decide_True by done.
    rewrite Hr. by intros Hne. }
  unfold Frame.concat in Hsub at 1. cbn [rows] in Hsub. rewrite fmap_app in Hsub.
  split; intros Hl.
  - rewrite <- (length_fmap (reindex (columns (Frame.concat a b))) (rows b)).
    eapply sublist_app_length; [exact Hsub | exact HP | by apply Hna].
  - rewrite <- (length_fmap (reindex (columns (Frame.concat a b))) (rows a)).
    eapply sublist_app_length_l; [exact Hsub | exact HP | by apply Hna].
Qed.

Lemma concat_missing_column_dropped_witness :
  let a := ledger january in
  let b := imported_of (csv_frame notes_csv) in
  let dfc := cleaned_of (Frame.concat a b) in
  "Notes" ∈ columns (Frame.concat a b)
  ∧ clean (Frame.concat a b) = Ok dfc
  ∧ Forall (λ r, row_get r "Notes" = NA) (rows a)
  ∧ length (rows a) = 2%nat ∧ length (rows b) = 1%nat
  ∧ (length (rows dfc) ≤ length (rows b))%nat.
Proof.
  intros a b dfc.
  assert (Hc : "Notes" ∈ columns (Frame.concat a b)) by vm_decide.
  assert (E : clean (Frame.concat a b) = Ok dfc) by vm_decide.
  assert (Hna : Forall (λ r, row_get r "Notes" = NA) (rows a)) by vm_decide.
  assert (Hla : length (rows a) = 2%nat) by vm_decide.
  assert (Hlb : length (rows b) = 1%nat) by vm_decide.
  assert (Hd : "Notes" ≠ "Date") by vm_decide.
  assert (Ha : "Notes" ≠ "Amount") by vm_decide.
  split; [exact Hc |]. split; [exact E |]. split; [exact Hna |].
  split; [exact Hla |]. split; [exact Hlb |].
  exact (proj1 (concat_missing_column_dropped a b "Notes" dfc Hd Ha Hc E) Hna).
Defined.



(** ** The summaries *)





(** ** The dashboard *)



(** ** The entries after an addition *)












